(** * go-fastly purge client and the Terraform HTTPS logging block

    A shallow embedding of [vendor/github.com/fastly/go-fastly/fastly/purge.go]
    (the purge client: [Purge], [PurgeKey], [PurgeAll]) and of the HTTPS
    logging block of the provider ([processHTTPS], [deleteHTTPS],
    [flattenHTTPS], [buildCreateHTTPS], [buildDeleteHTTPS]).

    Go constructs are modelled as follows.
    - A Go [string] is a [string]; [int] and [uint] are [Z] with the
      wrap-around of the conversion [uint(x)] written out.
    - A [map[string]T] is a [gmap string T]; a map that may be [nil] is an
      [option] of one, and an index of a missing key yields the zero value.
    - An [interface{}] value is a [value]: its dynamic type is the constructor.
    - A run-time panic is the outcome [Panic]; a Go [(x, err)] return is a
      [result]; an [error] that may be [nil] is an [option error].
    - Calls to the remote API go through a state-passing monad whose state is
      the remote world together with the log of the calls made so far. *)

From Stdlib Require Import ZArith Lia.
From stdpp Require Import base option strings pretty list gmap sets.

Local Open Scope string_scope.
Local Open Scope list_scope.
Local Open Scope Z_scope.

(** ** Go run-time model *)

(** The errors the two files tell apart.  [ErrMissingURL], [ErrMissingService]
    and [ErrMissingKey] are the package-level error values of go-fastly;
    [HTTPError] is [*gofastly.HTTPError] with its [StatusCode]; every other
    error (transport, decoding, ...) is an [OtherError]. *)
Inductive error : Type :=
  | ErrMissingURL
  | ErrMissingService
  | ErrMissingKey
  | HTTPError (StatusCode : Z)
  | OtherError (msg : string).

#[global] Instance error_eq_dec : EqDecision error.
Proof. solve_decision. Defined.

(** A Go pair [(x, err)] of which exactly one component is meaningful. *)
Inductive result (A : Type) : Type :=
  | Ok (a : A)
  | Err (e : error).
Arguments Ok {A} a.
Arguments Err {A} e.

(** A computation either returns or panics. *)
Inductive outcome (A : Type) : Type :=
  | Ret (a : A)
  | Panic (msg : string).
Arguments Ret {A} a.
Arguments Panic {A} msg.

Definition is_Ret {A} (o : outcome A) : bool :=
  match o with Ret _ => true | Panic _ => false end.

Definition obind {A B} (o : outcome A) (k : A -> outcome B) : outcome B :=
  match o with
  | Ret a => k a
  | Panic msg => Panic msg
  end.

(** State passing with panics: a panic keeps the state reached so far, so
    that the calls made before it stay observable. *)
Definition M (S A : Type) : Type := S -> outcome A * S.

Definition ret {S A} (a : A) : M S A := fun s => (Ret a, s).

Definition bind {S A B} (m : M S A) (k : A -> M S B) : M S B :=
  fun s =>
    match m s with
    | (Ret a, s') => k a s'
    | (Panic msg, s') => (Panic msg, s')
    end.

Definition lift {S A} (o : outcome A) : M S A := fun s => (o, s).

Declare Scope go_scope.
Delimit Scope go_scope with go.
Notation "x <~ m ;; k" := (bind m (fun x => k))
  (at level 100, m at next level, right associativity) : go_scope.
Notation "x <~~ o ;; k" := (obind o (fun x => k))
  (at level 100, o at next level, right associativity) : go_scope.
Local Open Scope go_scope.

(** [m[k] = v] on a map that may be [nil]. *)
Definition map_assign {V} (m : option (gmap string V)) (k : string) (v : V)
  : outcome (option (gmap string V)) :=
  match m with
  | None => Panic "assignment to entry in nil map"
  | Some m => Ret (Some (<[k := v]> m))
  end.

(** ** The purge client *)

Module PurgeClient.

(** [type Purge struct]: the decoded response.  The record is named [Purge_t]
    because [Purge] is also the method. *)
Record Purge_t : Type := { Status : string; ID : string }.

Record PurgeInput : Type := { URL : string; Soft : bool }.

Record PurgeKeyInput : Type :=
  { Service : string; Key : string; KSoft : bool }.

Record PurgeAllInput : Type := { AService : string; ASoft : bool }.

(** [RequestOptions] is declared in another file of the package.  The two
    fields used here are [Parallel], assigned [true], and [Headers], indexed
    by a string and assigned a string: a [map[string]string], which
    [new(RequestOptions)] leaves [nil]. *)
Record RequestOptions : Type :=
  { Headers : option (gmap string string); Parallel : bool }.

Definition new_RequestOptions : RequestOptions :=
  {| Headers := None; Parallel := false |}.

(** [*http.Request], with its [Header] of type [http.Header]. *)
Record Request : Type :=
  { Verb : string; Path : string; Header : gmap string (list string) }.

(** [http.Header.Set]: the key ["Fastly-Soft-Purge"] is already in canonical
    form, so the entry is replaced under that very key. *)
Definition Header_Set (req : Request) (k v : string) : Request :=
  {| Verb := Verb req; Path := Path req; Header := <[k := [v]]> (Header req) |}.

Record Response : Type := { RespStatus : Z; Body : string }.

(** What reaches the network. *)
Inductive call : Type :=
  | CallPost (path : string) (ro : RequestOptions)
  | CallDo (req : Request).

(** The collaborators of the three methods: [c.Post] and [c.HTTPClient.Do]
    talk to the remote world [W]; [c.RawRequest] only builds a request;
    [checkResp] and [decodeJSON] are functions of the package. *)
Class Client (W : Type) : Type := {
  Post : string -> RequestOptions -> W -> result Response * W;
  RawRequest : string -> string -> option RequestOptions -> result Request;
  HTTPClient_Do : Request -> W -> result Response * W;
  checkResp : result Response -> result Response;
  decodeJSON : string -> result Purge_t
}.

Section Methods.
Context {W : Type} `{Client W}.

(** The state: the remote world and the calls issued, oldest first. *)
Definition St : Type := W * list call.

Definition do_Post (path : string) (ro : RequestOptions)
  : M St (result Response) :=
  fun '(w, log) =>
    let '(r, w') := Post path ro w in
    (Ret r, (w', log ++ [CallPost path ro])).

Definition do_Do (req : Request) : M St (result Response) :=
  fun '(w, log) =>
    let '(r, w') := HTTPClient_Do req w in
    (Ret r, (w', log ++ [CallDo req])).

Definition decode (resp : Response) : result Purge_t :=
  match decodeJSON (Body resp) with
  | Err e => Err e
  | Ok r => Ok r
  end.

(** The method [Purge] of [*Client], from a [*PurgeInput] to a [*Purge] and an
    [error]. *)
Definition Purge (i : PurgeInput) : M St (result Purge_t) :=
  if decide (URL i = "") then ret (Err ErrMissingURL)
  else
    let ro := new_RequestOptions in
    let ro := {| Headers := Headers ro; Parallel := true |} in
    ro <~ (if Soft i
           then lift (h <~~ map_assign (Headers ro) "Fastly-Soft-Purge" "1" ;;
                      Ret {| Headers := h; Parallel := Parallel ro |})
           else ret ro) ;;
    r <~ do_Post ("purge/" +:+ URL i) ro ;;
    match r with
    | Err err => ret (Err err)
    | Ok resp => ret (decode resp)
    end.

(** The method [PurgeKey] of [*Client], from a [*PurgeKeyInput] to a [*Purge]
    and an [error]. *)
Definition PurgeKey (i : PurgeKeyInput) : M St (result Purge_t) :=
  if decide (Service i = "") then ret (Err ErrMissingService)
  else if decide (Key i = "") then ret (Err ErrMissingKey)
  else
    let path := "/service/" +:+ Service i +:+ "/purge/" +:+ Key i in
    let ro := new_RequestOptions in
    let ro := {| Headers := Headers ro; Parallel := true |} in
    match RawRequest "POST" path (Some ro) with
    | Err err => ret (Err err)
    | Ok req =>
        let req := if KSoft i then Header_Set req "Fastly-Soft-Purge" "1"
                   else req in
        r <~ do_Do req ;;
        match checkResp r with
        | Err err => ret (Err err)
        | Ok resp => ret (decode resp)
        end
    end.

(** The method [PurgeAll] of [*Client], from a [*PurgeAllInput] to a [*Purge]
    and an [error]. *)
Definition PurgeAll (i : PurgeAllInput) : M St (result Purge_t) :=
  if decide (AService i = "") then ret (Err ErrMissingService)
  else
    let path := "/service/" +:+ AService i +:+ "/purge_all" in
    match RawRequest "POST" path None with
    | Err err => ret (Err err)
    | Ok req =>
        let req := if ASoft i then Header_Set req "Fastly-Soft-Purge" "1"
                   else req in
        r <~ do_Do req ;;
        match checkResp r with
        | Err err => ret (Err err)
        | Ok resp => ret (decode resp)
        end
    end.

(** What a run of one of the three methods leaves behind: the log extended
    by at most one call, and an untouched world when no call was made. *)
Definition at_most_one_call (w : W) (log : list call) (st' : St) : Prop :=
  exists issued,
    st'.2 = log ++ issued /\ (length issued <= 1)%nat /\
    (issued = [] -> st'.1 = w).

End Methods.

End PurgeClient.

(** ** The HTTPS logging block *)

(** The dynamic values an [interface{}] of a configuration map holds. *)
Inductive value : Type :=
  | VString (s : string)
  | VInt (n : Z)
  | VUint (n : Z)
  | VBool (b : bool).

#[global] Instance value_eq_dec : EqDecision value.
Proof. solve_decision. Defined.

Definition value_to_sum (v : value) : string + (Z + (Z + bool)) :=
  match v with
  | VString s => inl s
  | VInt n => inr (inl n)
  | VUint n => inr (inr (inl n))
  | VBool b => inr (inr (inr b))
  end.

Definition sum_to_value (x : string + (Z + (Z + bool))) : value :=
  match x with
  | inl s => VString s
  | inr (inl n) => VInt n
  | inr (inr (inl n)) => VUint n
  | inr (inr (inr b)) => VBool b
  end.

#[global] Instance value_countable : Countable value :=
  inj_countable' value_to_sum sum_to_value
    (fun v => match v with
              | VString _ | VInt _ | VUint _ | VBool _ => eq_refl
              end).

(** An [interface{}] that is asserted to be a [map[string]interface{}]: it
    holds such a map, or a value of another dynamic type. *)
Inductive iface : Type :=
  | IMap (m : gmap string value)
  | IVal (v : value).

#[global] Instance iface_eq_dec : EqDecision iface.
Proof. solve_decision. Defined.

Definition iface_to_sum (x : iface) : gmap string value + value :=
  match x with IMap m => inl m | IVal v => inr v end.

Definition sum_to_iface (x : gmap string value + value) : iface :=
  match x with inl m => IMap m | inr v => IVal v end.

#[global] Instance iface_countable : Countable iface :=
  inj_countable' iface_to_sum sum_to_iface
    (fun x => match x with IMap _ | IVal _ => eq_refl end).

(** [uint(x)] for an [int] [x], on the 64-bit targets: the value modulo
    [2^64]. *)
Definition uint_bits : Z := 64.
Definition uint (x : Z) : Z := x mod 2 ^ uint_bits.

(** The type assertions [x.(string)] and [x.(int)] on the result of a map
    index: a missing key yields the [nil] interface, on which every assertion
    panics, as it does on a value of another dynamic type. *)
Definition assert_string (x : option value) : outcome string :=
  match x with
  | Some (VString s) => Ret s
  | _ => Panic "interface conversion: interface {} is not string"
  end.

Definition assert_int (x : option value) : outcome Z :=
  match x with
  | Some (VInt n) => Ret n
  | _ => Panic "interface conversion: interface {} is not int"
  end.

(** [x.(map[string]interface{})] *)
Definition assert_map (x : iface) : outcome (gmap string value) :=
  match x with
  | IMap m => Ret m
  | IVal _ =>
      Panic "interface conversion: interface {} is not map[string]interface {}"
  end.

(** Modelled from the spec: [schema.Set] of the Terraform SDK, which is not
    part of the sources: an unordered collection of entries compared by
    structural equality per entry.  [Difference] is the set difference and
    [List] enumerates the entries once each, in an order the callers do not
    rely on. *)
Module schema.
Abbreviation Set_t := (gset iface).
Definition new_Set : Set_t := ∅.
Definition Difference (s other : Set_t) : Set_t := s ∖ other.
Definition List (s : Set_t) : list iface := elements s.

(** [*schema.ResourceData], as far as the block reads it: [d.Id()] and
    [d.GetChange(key)], whose two results are [nil] or a [*schema.Set]. *)
Record ResourceData : Type :=
  { Id : string; GetChange : string -> option Set_t * option Set_t }.
End schema.

(** Modelled from the spec: the record [gofastly.HTTPS] of the API client,
    declared outside the sources; the fields read by [flattenHTTPS], strings
    except the three numeric ones, which the API holds as unsigned
    integers. *)
Module HTTPS.
Record t : Type := {
  Name : string;
  ResponseCondition : string;
  Format : string;
  URL : string;
  RequestMaxEntries : Z;
  RequestMaxBytes : Z;
  ContentType : string;
  HeaderName : string;
  HeaderValue : string;
  Method : string;
  JSONFormat : string;
  Placement : string;
  TLSCACert : string;
  TLSClientCert : string;
  TLSClientKey : string;
  TLSHostname : string;
  MessageType : string;
  FormatVersion : Z
}.
End HTTPS.

(** [gofastly.CreateHTTPSInput], with the fields [buildCreateHTTPS] fills. *)
Module CreateHTTPSInput.
Record t : Type := {
  Service : string;
  Version : Z;
  Name : string;
  URL : string;
  RequestMaxEntries : Z;
  RequestMaxBytes : Z;
  ContentType : string;
  HeaderName : string;
  HeaderValue : string;
  Method : string;
  JSONFormat : string;
  TLSCACert : string;
  TLSClientCert : string;
  TLSClientKey : string;
  TLSHostname : string;
  Format : string;
  FormatVersion : Z;
  MessageType : string;
  Placement : string;
  ResponseCondition : string
}.
End CreateHTTPSInput.

(** [gofastly.DeleteHTTPSInput] *)
Module DeleteHTTPSInput.
Record t : Type := { Service : string; Version : Z; Name : string }.
End DeleteHTTPSInput.

Module Logging.

(** The calls the block makes on the API client. *)
Inductive call : Type :=
  | CallDelete (i : DeleteHTTPSInput.t)
  | CallCreate (i : CreateHTTPSInput.t).

(** [conn.DeleteHTTPS] and [conn.CreateHTTPS] of [*gofastly.Client], acting
    on the remote configuration [Conn]. *)
Class API (Conn : Type) : Type := {
  DeleteHTTPS : DeleteHTTPSInput.t -> Conn -> option error * Conn;
  CreateHTTPS : CreateHTTPSInput.t -> Conn -> result HTTPS.t * Conn
}.

(** [func buildCreateHTTPS(httpsMap interface{}, serviceID string,
    serviceVersion int) *gofastly.CreateHTTPSInput].  The fields of the
    composite literal are evaluated in the order written. *)
Definition buildCreateHTTPS (httpsMap : iface) (serviceID : string)
    (serviceVersion : Z) : outcome CreateHTTPSInput.t :=
  df <~~ assert_map httpsMap ;;
  name <~~ assert_string (df !! "name") ;;
  url <~~ assert_string (df !! "url") ;;
  request_max_entries <~~ assert_int (df !! "request_max_entries") ;;
  request_max_bytes <~~ assert_int (df !! "request_max_bytes") ;;
  content_type <~~ assert_string (df !! "content_type") ;;
  header_name <~~ assert_string (df !! "header_name") ;;
  header_value <~~ assert_string (df !! "header_value") ;;
  method <~~ assert_string (df !! "method") ;;
  json_format <~~ assert_string (df !! "json_format") ;;
  tls_ca_cert <~~ assert_string (df !! "tls_ca_cert") ;;
  tls_client_cert <~~ assert_string (df !! "tls_client_cert") ;;
  tls_client_key <~~ assert_string (df !! "tls_client_key") ;;
  tls_hostname <~~ assert_string (df !! "tls_hostname") ;;
  format <~~ assert_string (df !! "format") ;;
  format_version <~~ assert_int (df !! "format_version") ;;
  message_type <~~ assert_string (df !! "message_type") ;;
  placement <~~ assert_string (df !! "placement") ;;
  response_condition <~~ assert_string (df !! "response_condition") ;;
  Ret {| CreateHTTPSInput.Service := serviceID;
         CreateHTTPSInput.Version := serviceVersion;
         CreateHTTPSInput.Name := name;
         CreateHTTPSInput.URL := url;
         CreateHTTPSInput.RequestMaxEntries := uint request_max_entries;
         CreateHTTPSInput.RequestMaxBytes := uint request_max_bytes;
         CreateHTTPSInput.ContentType := content_type;
         CreateHTTPSInput.HeaderName := header_name;
         CreateHTTPSInput.HeaderValue := header_value;
         CreateHTTPSInput.Method := method;
         CreateHTTPSInput.JSONFormat := json_format;
         CreateHTTPSInput.TLSCACert := tls_ca_cert;
         CreateHTTPSInput.TLSClientCert := tls_client_cert;
         CreateHTTPSInput.TLSClientKey := tls_client_key;
         CreateHTTPSInput.TLSHostname := tls_hostname;
         CreateHTTPSInput.Format := format;
         CreateHTTPSInput.FormatVersion := uint format_version;
         CreateHTTPSInput.MessageType := message_type;
         CreateHTTPSInput.Placement := placement;
         CreateHTTPSInput.ResponseCondition := response_condition |}.

(** [func buildDeleteHTTPS(httpsMap interface{}, serviceID string,
    serviceVersion int) *gofastly.DeleteHTTPSInput] *)
Definition buildDeleteHTTPS (httpsMap : iface) (serviceID : string)
    (serviceVersion : Z) : outcome DeleteHTTPSInput.t :=
  df <~~ assert_map httpsMap ;;
  name <~~ assert_string (df !! "name") ;;
  Ret {| DeleteHTTPSInput.Service := serviceID;
         DeleteHTTPSInput.Version := serviceVersion;
         DeleteHTTPSInput.Name := name |}.

(** The map literal of [flattenHTTPS], one entry per field of the record. *)
Definition literal (hl : HTTPS.t) : gmap string value :=
  list_to_map
    [ ("name", VString (HTTPS.Name hl));
      ("response_condition", VString (HTTPS.ResponseCondition hl));
      ("format", VString (HTTPS.Format hl));
      ("url", VString (HTTPS.URL hl));
      ("request_max_entries", VUint (HTTPS.RequestMaxEntries hl));
      ("request_max_bytes", VUint (HTTPS.RequestMaxBytes hl));
      ("content_type", VString (HTTPS.ContentType hl));
      ("header_name", VString (HTTPS.HeaderName hl));
      ("header_value", VString (HTTPS.HeaderValue hl));
      ("method", VString (HTTPS.Method hl));
      ("json_format", VString (HTTPS.JSONFormat hl));
      ("placement", VString (HTTPS.Placement hl));
      ("tls_ca_cert", VString (HTTPS.TLSCACert hl));
      ("tls_client_cert", VString (HTTPS.TLSClientCert hl));
      ("tls_client_key", VString (HTTPS.TLSClientKey hl));
      ("tls_hostname", VString (HTTPS.TLSHostname hl));
      ("message_type", VString (HTTPS.MessageType hl));
      ("format_version", VUint (HTTPS.FormatVersion hl)) ].

(** The comparison [v == ""] of an interface with a string constant: true
    exactly for the dynamic type [string] and the empty value. *)
Definition eq_empty_string (v : value) : bool :=
  match v with
  | VString s => bool_decide (s = "")
  | _ => false
  end.

(** The body of [for k, v := range nhl], run over the entries in the order
    [order] in which the range yields them: an entry is deleted only while it
    is visited, so the range yields every entry of the literal once. *)
Definition prune_range (order : list (string * value))
    (nhl : gmap string value) : gmap string value :=
  foldl (fun m kv => if eq_empty_string kv.2 then delete kv.1 m else m)
        nhl order.

(** Whether the range visits an entry under key [k] that [v == ""] holds of. *)
Definition visits_empty (k : string) (order : list (string * value)) : bool :=
  existsb (fun kv => bool_decide (kv.1 = k) && eq_empty_string kv.2) order.

Definition flatten_one (hl : HTTPS.t) : gmap string value :=
  let nhl := literal hl in
  prune_range (map_to_list nhl) nhl.

(** [func flattenHTTPS(httpsList []*gofastly.HTTPS) []map[string]interface{}] *)
Definition flattenHTTPS (httpsList : list HTTPS.t)
  : list (gmap string value) :=
  foldl (fun hsl hl => hsl ++ [flatten_one hl])%list [] httpsList.

Section Block.
Context {Conn : Type} `{API Conn}.

(** The remote configuration and the calls made, oldest first. *)
Definition St : Type := Conn * list call.

Definition do_Delete (i : DeleteHTTPSInput.t) : M St (option error) :=
  fun '(c, log) =>
    let '(err, c') := DeleteHTTPS i c in
    (Ret err, (c', (log ++ [CallDelete i])%list)).

Definition do_Create (i : CreateHTTPSInput.t) : M St (result HTTPS.t) :=
  fun '(c, log) =>
    let '(r, c') := CreateHTTPS i c in
    (Ret r, (c', (log ++ [CallCreate i])%list)).

(** [func createHTTPS(conn *gofastly.Client, i *gofastly.CreateHTTPSInput)
    error] *)
Definition createHTTPS (i : CreateHTTPSInput.t) : M St (option error) :=
  r <~ do_Create i ;;
  match r with
  | Err err => ret (Some err)
  | Ok _ => ret None
  end.

(** [func deleteHTTPS(conn *gofastly.Client, i *gofastly.DeleteHTTPSInput)
    error] *)
Definition deleteHTTPS (i : DeleteHTTPSInput.t) : M St (option error) :=
  err <~ do_Delete i ;;
  match err with
  | Some (HTTPError StatusCode) =>
      if decide (StatusCode <> 404) then ret err else ret None
  | Some _ => ret err
  | None => ret None
  end.

(** The first loop of [processHTTPS]; [Some err] is its [return err]. *)
Fixpoint remove_loop (serviceID : string) (latestVersion : Z)
    (removeHTTPSLogging : list iface) : M St (option error) :=
  match removeHTTPSLogging with
  | [] => ret None
  | oRaw :: rest =>
      of_ <~ lift (assert_map oRaw) ;;
      opts <~ lift (buildDeleteHTTPS (IMap of_) serviceID latestVersion) ;;
      err <~ deleteHTTPS opts ;;
      match err with
      | Some e => ret (Some e)
      | None => remove_loop serviceID latestVersion rest
      end
  end.

(** The second loop of [processHTTPS]. *)
Fixpoint add_loop (serviceID : string) (latestVersion : Z)
    (addHTTPSLogging : list iface) : M St (option error) :=
  match addHTTPSLogging with
  | [] => ret None
  | nRaw :: rest =>
      hf <~ lift (assert_map nRaw) ;;
      opts <~ lift (buildCreateHTTPS (IMap hf) serviceID latestVersion) ;;
      err <~ createHTTPS opts ;;
      match err with
      | Some e => ret (Some e)
      | None => add_loop serviceID latestVersion rest
      end
  end.

Definition removeHTTPSLogging (d : schema.ResourceData) : list iface :=
  let '(oh, nh) := schema.GetChange d "httpslogging" in
  let ohs := default schema.new_Set oh in
  let nhs := default schema.new_Set nh in
  schema.List (schema.Difference ohs nhs).

Definition addHTTPSLogging (d : schema.ResourceData) : list iface :=
  let '(oh, nh) := schema.GetChange d "httpslogging" in
  let ohs := default schema.new_Set oh in
  let nhs := default schema.new_Set nh in
  schema.List (schema.Difference nhs ohs).

(** [func processHTTPS(d *schema.ResourceData, conn *gofastly.Client,
    latestVersion int) error].  The two [log.Printf] lines write to the
    debug log only and are left out. *)
Definition processHTTPS (d : schema.ResourceData) (latestVersion : Z)
  : M St (option error) :=
  let serviceID := schema.Id d in
  err <~ remove_loop serviceID latestVersion (removeHTTPSLogging d) ;;
  match err with
  | Some e => ret (Some e)
  | None =>
      err <~ add_loop serviceID latestVersion (addHTTPSLogging d) ;;
      match err with
      | Some e => ret (Some e)
      | None => ret None
      end
  end.

(** *** What the helpers report, call by call

    [call_result k c] is the error that the helper behind the call [k]
    ([deleteHTTPS] or [createHTTPS]) hands to [processHTTPS] when the
    remote configuration is [c], and the configuration it leaves. *)
Definition call_result (k : call) (c : Conn) : option error * Conn :=
  match k with
  | CallDelete i =>
      let '(err, c') := DeleteHTTPS i c in
      (match err with
       | Some (HTTPError StatusCode) =>
           if decide (StatusCode = 404) then None else err
       | _ => err
       end, c')
  | CallCreate i =>
      let '(r, c') := CreateHTTPS i c in
      (match r with Err e => Some e | Ok _ => None end, c')
  end.

(** The remote configuration after the calls [tr], whatever they return. *)
Definition exec (tr : list call) (c : Conn) : Conn :=
  foldl (fun c k => (call_result k c).2) c tr.

(** Every call of [tr], made in turn from [c], reports no error. *)
Fixpoint all_ok (tr : list call) (c : Conn) : Prop :=
  match tr with
  | [] => True
  | k :: tr' => (call_result k c).1 = None /\ all_ok tr' (call_result k c).2
  end.

(** The helper behind a call, and a plan carried out item by item: the
    first panic or the first error ends it. *)
Definition step (k : call) : M St (option error) :=
  match k with
  | CallDelete i => deleteHTTPS i
  | CallCreate i => createHTTPS i
  end.

Fixpoint run (plan : list (outcome call)) : M St (option error) :=
  match plan with
  | [] => ret None
  | item :: rest =>
      k <~ lift item ;;
      err <~ step k ;;
      match err with
      | Some e => ret (Some e)
      | None => run rest
      end
  end.

End Block.

(** *** The calls an invocation sets out to make

    One item per entry of the two differences, removals first: the call built
    from the entry, or the panic of building it. *)
Definition plan_delete (serviceID : string) (latestVersion : Z) (oRaw : iface)
  : outcome call :=
  of_ <~~ assert_map oRaw ;;
  opts <~~ buildDeleteHTTPS (IMap of_) serviceID latestVersion ;;
  Ret (CallDelete opts).

Definition plan_create (serviceID : string) (latestVersion : Z) (nRaw : iface)
  : outcome call :=
  hf <~~ assert_map nRaw ;;
  opts <~~ buildCreateHTTPS (IMap hf) serviceID latestVersion ;;
  Ret (CallCreate opts).

Definition planned (d : schema.ResourceData) (latestVersion : Z)
  : list (outcome call) :=
  (plan_delete (schema.Id d) latestVersion <$> removeHTTPSLogging d)
  ++ (plan_create (schema.Id d) latestVersion <$> addHTTPSLogging d).

(** *** The configuration schema, [httpsloggingSchema]

    The [Elem] resource of the set: for each key its [Type], whether it is
    [Required] or [Optional], its [Default] and whether it is [Sensitive]. *)
Inductive ValueType : Type := TypeString | TypeInt.

Record Schema : Type := {
  Type_ : ValueType;
  Required : bool;
  Optional : bool;
  Default : option value;
  Sensitive : bool
}.

Definition required (ty : ValueType) : Schema :=
  {| Type_ := ty; Required := true; Optional := false; Default := None;
     Sensitive := false |}.

Definition optional (ty : ValueType) (dflt : option value) (secret : bool)
  : Schema :=
  {| Type_ := ty; Required := false; Optional := true; Default := dflt;
     Sensitive := secret |}.

Definition httpsloggingSchema : list (string * Schema) :=
  [ ("name", required TypeString);
    ("url", required TypeString);
    ("request_max_entries", optional TypeInt None false);
    ("request_max_bytes", optional TypeInt None false);
    ("content_type", optional TypeString None false);
    ("header_name", optional TypeString None false);
    ("header_value", optional TypeString None false);
    ("method", optional TypeString (Some (VString "POST")) false);
    ("json_format", optional TypeString (Some (VString "0")) false);
    ("tls_ca_cert", optional TypeString None true);
    ("tls_client_cert", optional TypeString None true);
    ("tls_client_key", optional TypeString None true);
    ("tls_hostname", optional TypeString None false);
    ("format", optional TypeString None false);
    ("format_version", optional TypeInt (Some (VInt 2)) false);
    ("message_type", optional TypeString (Some (VString "blank")) false);
    ("placement", optional TypeString None false);
    ("response_condition", optional TypeString None false) ].

(** The entry of a map under key [k] has the dynamic type the schema gives
    the key: [string] for [TypeString], [int] for [TypeInt]. *)
Definition has_type (ty : ValueType) (x : option value) : bool :=
  match ty, x with
  | TypeString, Some (VString _) => true
  | TypeInt, Some (VInt _) => true
  | _, _ => false
  end.

(** A map holds every key of the schema with the type of the schema. *)
Definition create_ready (df : gmap string value) : bool :=
  forallb (fun ks => has_type (Type_ ks.2) (df !! ks.1)) httpsloggingSchema.

(** A map holds the key ["name"] with a [string]. *)
Definition delete_ready (df : gmap string value) : bool :=
  has_type TypeString (df !! "name").

(** The zero value of each dynamic type. *)
Definition is_zero_value (v : value) : bool :=
  match v with
  | VString s => bool_decide (s = "")
  | VInt n | VUint n => bool_decide (n = 0)
  | VBool b => negb b
  end.

End Logging.

(** ** Reference collaborators

    A small in-memory CDN, on which the methods and the block run to a value.
    They stand in for the remote service only where a concrete run is
    wanted; every general statement below quantifies over all [Client]s and
    all [API]s. *)
Module Reference.

(** The purge side: the world is the list of purged paths. *)
#[global] Instance purge_client : PurgeClient.Client (list string) := {|
  PurgeClient.Post path ro w :=
    (Ok {| PurgeClient.RespStatus := 200; PurgeClient.Body := path |},
     (w ++ [path])%list);
  PurgeClient.RawRequest verb path ro :=
    Ok {| PurgeClient.Verb := verb; PurgeClient.Path := path;
          PurgeClient.Header :=
            <["User-Agent" := ["FastlyGo"]]>
              ((fun v => [v]) <$>
                 default ∅ (ro ≫= PurgeClient.Headers)) |};
  PurgeClient.HTTPClient_Do req w :=
    (Ok {| PurgeClient.RespStatus := 200;
           PurgeClient.Body := PurgeClient.Path req |},
     (w ++ [PurgeClient.Path req])%list);
  PurgeClient.checkResp r :=
    match r with
    | Ok resp =>
        if decide (200 <= PurgeClient.RespStatus resp < 300) then Ok resp
        else Err (HTTPError (PurgeClient.RespStatus resp))
    | Err e => Err e
    end;
  PurgeClient.decodeJSON body :=
    Ok {| PurgeClient.Status := "ok"; PurgeClient.ID := body |}
|}.

(** The logging side: a service version that is either locked or a draft,
    with its endpoints by name. *)
Record Server : Type :=
  { locked : bool; endpoints : gmap string CreateHTTPSInput.t }.

Definition to_HTTPS (i : CreateHTTPSInput.t) : HTTPS.t :=
  {| HTTPS.Name := CreateHTTPSInput.Name i;
     HTTPS.ResponseCondition := CreateHTTPSInput.ResponseCondition i;
     HTTPS.Format := CreateHTTPSInput.Format i;
     HTTPS.URL := CreateHTTPSInput.URL i;
     HTTPS.RequestMaxEntries := CreateHTTPSInput.RequestMaxEntries i;
     HTTPS.RequestMaxBytes := CreateHTTPSInput.RequestMaxBytes i;
     HTTPS.ContentType := CreateHTTPSInput.ContentType i;
     HTTPS.HeaderName := CreateHTTPSInput.HeaderName i;
     HTTPS.HeaderValue := CreateHTTPSInput.HeaderValue i;
     HTTPS.Method := CreateHTTPSInput.Method i;
     HTTPS.JSONFormat := CreateHTTPSInput.JSONFormat i;
     HTTPS.Placement := CreateHTTPSInput.Placement i;
     HTTPS.TLSCACert := CreateHTTPSInput.TLSCACert i;
     HTTPS.TLSClientCert := CreateHTTPSInput.TLSClientCert i;
     HTTPS.TLSClientKey := CreateHTTPSInput.TLSClientKey i;
     HTTPS.TLSHostname := CreateHTTPSInput.TLSHostname i;
     HTTPS.MessageType := CreateHTTPSInput.MessageType i;
     HTTPS.FormatVersion := CreateHTTPSInput.FormatVersion i |}.

#[global] Instance server_api : Logging.API Server := {|
  Logging.DeleteHTTPS i c :=
    if locked c then (Some (HTTPError 422), c)
    else match endpoints c !! DeleteHTTPSInput.Name i with
         | None => (Some (HTTPError 404), c)
         | Some _ =>
             (None, {| locked := false;
                       endpoints :=
                         delete (DeleteHTTPSInput.Name i) (endpoints c) |})
         end;
  Logging.CreateHTTPS i c :=
    if locked c then (Err (HTTPError 422), c)
    else match endpoints c !! CreateHTTPSInput.Name i with
         | Some _ => (Err (HTTPError 409), c)
         | None =>
             (Ok (to_HTTPS i),
              {| locked := false;
                 endpoints :=
                   <[CreateHTTPSInput.Name i := i]> (endpoints c) |})
         end
|}.

(** A configuration entry with the given name and URL and the defaults of
    the schema elsewhere. *)
Definition entry (name url : string) : gmap string value :=
  list_to_map
    [ ("name", VString name); ("url", VString url);
      ("request_max_entries", VInt 0); ("request_max_bytes", VInt 0);
      ("content_type", VString ""); ("header_name", VString "");
      ("header_value", VString ""); ("method", VString "POST");
      ("json_format", VString "0"); ("tls_ca_cert", VString "");
      ("tls_client_cert", VString ""); ("tls_client_key", VString "");
      ("tls_hostname", VString ""); ("format", VString "%h");
      ("format_version", VInt 2); ("message_type", VString "blank");
      ("placement", VString ""); ("response_condition", VString "") ].

Definition change (old new : gset iface) : schema.ResourceData :=
  {| schema.Id := "svc1"; schema.GetChange _ := (Some old, Some new) |}.

(** The inputs the block builds from [entry name url] for service ["svc1"]
    at version 3. *)
Definition delete_input (name : string) : DeleteHTTPSInput.t :=
  {| DeleteHTTPSInput.Service := "svc1"; DeleteHTTPSInput.Version := 3;
     DeleteHTTPSInput.Name := name |}.

Definition create_input (name url : string) : CreateHTTPSInput.t :=
  {| CreateHTTPSInput.Service := "svc1";
     CreateHTTPSInput.Version := 3;
     CreateHTTPSInput.Name := name;
     CreateHTTPSInput.URL := url;
     CreateHTTPSInput.RequestMaxEntries := 0;
     CreateHTTPSInput.RequestMaxBytes := 0;
     CreateHTTPSInput.ContentType := "";
     CreateHTTPSInput.HeaderName := "";
     CreateHTTPSInput.HeaderValue := "";
     CreateHTTPSInput.Method := "POST";
     CreateHTTPSInput.JSONFormat := "0";
     CreateHTTPSInput.TLSCACert := "";
     CreateHTTPSInput.TLSClientCert := "";
     CreateHTTPSInput.TLSClientKey := "";
     CreateHTTPSInput.TLSHostname := "";
     CreateHTTPSInput.Format := "%h";
     CreateHTTPSInput.FormatVersion := 2;
     CreateHTTPSInput.MessageType := "blank";
     CreateHTTPSInput.Placement := "";
     CreateHTTPSInput.ResponseCondition := "" |}.

(** A version, locked or not, holding endpoints of the given names. *)
Definition server_with (lock : bool) (names : list string) : Server :=
  {| locked := lock;
     endpoints :=
       list_to_map
         ((fun name => (name, create_input name "https://logs.example.com"))
            <$> names) |}.

(** A server-side record, empty except for what is given. *)
Definition record (name url content_type : string) (max_entries : Z)
  : HTTPS.t :=
  {| HTTPS.Name := name; HTTPS.ResponseCondition := "";
     HTTPS.Format := "%h"; HTTPS.URL := url;
     HTTPS.RequestMaxEntries := max_entries; HTTPS.RequestMaxBytes := 0;
     HTTPS.ContentType := content_type; HTTPS.HeaderName := "";
     HTTPS.HeaderValue := ""; HTTPS.Method := "POST";
     HTTPS.JSONFormat := "0"; HTTPS.Placement := ""; HTTPS.TLSCACert := "";
     HTTPS.TLSClientCert := ""; HTTPS.TLSClientKey := "";
     HTTPS.TLSHostname := ""; HTTPS.MessageType := "blank";
     HTTPS.FormatVersion := 2 |}.

End Reference.

(** ** Refreshing the stored state *)

Module Refresh.

(** [gofastly.ListHTTPSInput] *)
Record ListHTTPSInput : Type := { Service : string; Version : Z }.

(** [gofastly.ServiceDetail], as far as [readHTTPS] reads it:
    [s.ActiveVersion.Number]. *)
Record Version_t : Type := { Number : Z }.
Record ServiceDetail : Type := { ActiveVersion : Version_t }.

(** What [readHTTPS] does to its collaborators. *)
Inductive event : Type :=
  | EvList (i : ListHTTPSInput)
  | EvSet (key : string) (hll : list (gmap string value)).

(** The collaborators of [readHTTPS]: [conn.ListHTTPS] on the remote
    configuration [Conn]; [d.Id()] and [d.Set] on the resource data [Data];
    and the method [Error()] of an [error], which [fmt.Errorf] calls for the
    verb [%s]. *)
Class Env (Conn Data : Type) : Type := {
  ListHTTPS : ListHTTPSInput -> Conn -> result (list HTTPS.t) * Conn;
  Data_Id : Data -> string;
  Data_Set : string -> list (gmap string value) -> Data -> option error * Data;
  Error : error -> string
}.

Section Read.
Context {Conn Data : Type} `{Env Conn Data}.

Definition St : Type := Conn * Data * list event.

Definition get_Id : M St string :=
  fun '(c, d, log) => (Ret (Data_Id d), (c, d, log)).

Definition do_List (i : ListHTTPSInput) : M St (result (list HTTPS.t)) :=
  fun '(c, d, log) =>
    let '(r, c') := ListHTTPS i c in
    (Ret r, (c', d, log ++ [EvList i])).

Definition do_Set (key : string) (hll : list (gmap string value))
  : M St (option error) :=
  fun '(c, d, log) =>
    let '(err, d') := Data_Set key hll d in
    (Ret err, (c, d', log ++ [EvSet key hll])).

(** The error built by [fmt.Errorf]: a new error value, not an
    [*HTTPError], whose text holds the id, the version number in decimal
    and the text of [err]. *)
Definition lookup_error (id : string) (number : Z) (err : error) : error :=
  OtherError
    ("[ERR] Error looking up HTTPS logging endpoints for (" +:+ id
     +:+ "), version (" +:+ pretty number +:+ "): " +:+ Error err).

(** [func readHTTPS(conn *gofastly.Client, d *schema.ResourceData,
    s *gofastly.ServiceDetail) error].  The [log.Printf] lines write to the
    log only and are left out; the branch on the error of [d.Set] holds
    nothing else. *)
Definition readHTTPS (s : ServiceDetail) : M St (option error) :=
  id <~ get_Id ;;
  r <~ do_List {| Service := id; Version := Number (ActiveVersion s) |} ;;
  match r with
  | Err err =>
      id <~ get_Id ;;
      ret (Some (lookup_error id (Number (ActiveVersion s)) err))
  | Ok httpsList =>
      let hll := Logging.flattenHTTPS httpsList in
      err <~ do_Set "httpslogging" hll ;;
      match err with
      | Some _ => ret None
      | None => ret None
      end
  end.

End Read.

End Refresh.

(** ** Further reference collaborators *)

Module Reference2.

(** A purge client whose [RawRequest] succeeds or not and whose server
    answers every request with the given status. *)
Definition client_with (raw_ok : bool) (status : Z)
  : PurgeClient.Client (list string) := {|
  PurgeClient.Post path ro w :=
    (Ok {| PurgeClient.RespStatus := status; PurgeClient.Body := path |},
     w ++ [path]);
  PurgeClient.RawRequest verb path ro :=
    if raw_ok
    then Ok {| PurgeClient.Verb := verb; PurgeClient.Path := path;
               PurgeClient.Header :=
                 <["Fastly-Soft-Purge" := ["0"]]>
                   (<["User-Agent" := ["FastlyGo"]]> ∅) |}
    else Err (OtherError "parse: invalid URL escape");
  PurgeClient.HTTPClient_Do req w :=
    (Ok {| PurgeClient.RespStatus := status;
           PurgeClient.Body := PurgeClient.Path req |},
     w ++ [PurgeClient.Path req]);
  PurgeClient.checkResp r :=
    match r with
    | Ok resp =>
        if decide (200 <= PurgeClient.RespStatus resp < 300) then Ok resp
        else Err (HTTPError (PurgeClient.RespStatus resp))
    | Err e => Err e
    end;
  PurgeClient.decodeJSON body :=
    Ok {| PurgeClient.Status := "ok"; PurgeClient.ID := body |}
|}.

(** Resource data that can be frozen: a frozen one refuses [Set]. *)
Record Data : Type := {
  data_id : string;
  frozen : bool;
  stored : option (list (gmap string value))
}.

#[global] Instance refresh_env : Refresh.Env Reference.Server Data := {|
  Refresh.ListHTTPS i c :=
    if Reference.locked c then (Err (HTTPError 500), c)
    else (Ok (Reference.to_HTTPS <$> (map_to_list (Reference.endpoints c)).*2),
          c);
  Refresh.Data_Id d := data_id d;
  Refresh.Data_Set key hll d :=
    if frozen d then (Some (OtherError "Invalid address to set"), d)
    else (None, {| data_id := data_id d; frozen := false;
                   stored := Some hll |});
  Refresh.Error e :=
    match e with
    | ErrMissingURL => "missing required field 'URL'"
    | ErrMissingService => "missing required field 'Service'"
    | ErrMissingKey => "missing required field 'Key'"
    | HTTPError code => pretty code +:+ " - error"
    | OtherError msg => msg
    end
|}.

End Reference2.

(** * Properties of the purge client *)

Section PurgeFacts.
Import PurgeClient.
Context {W : Type} `{Client W}.

(** C6.  A purge whose required field is empty returns the matching
    missing-field error and leaves the state as it found it: the remote world
    is untouched and no call is added to the log.  [Purge] checks [URL];
    [PurgeKey] checks [Service] first and [Key] second, so an empty [Key]
    yields [ErrMissingKey] unless [Service] is empty as well; [PurgeAll]
    checks [Service]. *)
Theorem purge_missing_field_before_any_call :
  (forall (i : PurgeInput) (st : St),
      URL i = "" -> Purge i st = (Ret (Err ErrMissingURL), st)) /\
  (forall (i : PurgeKeyInput) (st : St),
      Service i = "" -> PurgeKey i st = (Ret (Err ErrMissingService), st)) /\
  (forall (i : PurgeKeyInput) (st : St),
      Key i = "" ->
      PurgeKey i st =
        (Ret (Err (if decide (Service i = "") then ErrMissingService
                   else ErrMissingKey)), st)) /\
  (forall (i : PurgeAllInput) (st : St),
      AService i = "" -> PurgeAll i st = (Ret (Err ErrMissingService), st)).
Proof.
  repeat split; intros i st Hempty.
  - unfold Purge. rewrite Hempty. reflexivity.
  - unfold PurgeKey. rewrite Hempty. reflexivity.
  - unfold PurgeKey. rewrite Hempty.
    destruct (decide (Service i = "")); reflexivity.
  - unfold PurgeAll. rewrite Hempty. reflexivity.
Qed.

(** C1, on [Purge].  With a non-empty [URL] and [Soft] set, [Purge] assigns
    into the [Headers] map that [new(RequestOptions)] left [nil]: it panics
    before [c.Post] is reached, and no request is issued at all. *)
Theorem Purge_soft_panics (i : PurgeInput) (st : St) :
  URL i <> "" -> Soft i = true ->
  Purge i st = (Panic "assignment to entry in nil map", st).
Proof.
  intros Hurl Hsoft. unfold Purge.
  destruct (decide (URL i = "")) as [Heq|_]; [contradiction|].
  rewrite Hsoft. reflexivity.
Qed.

(** Without [Soft], [Purge] posts to ["purge/" + URL] with options that hold
    no header at all. *)
Lemma Purge_hard_request (i : PurgeInput) (w : W) (log : list call) :
  URL i <> "" -> Soft i = false ->
  let ro := {| Headers := None; Parallel := true |} in
  let path := "purge/" +:+ URL i in
  Purge i (w, log) =
    (Ret (match (Post path ro w).1 with
          | Err err => Err err
          | Ok resp => decode resp
          end),
     ((Post path ro w).2, (log ++ [CallPost path ro])%list)).
Proof.
  intros Hurl Hsoft ro path. unfold Purge.
  destruct (decide (URL i = "")) as [Heq|_]; [contradiction|].
  rewrite Hsoft. unfold bind, ret, do_Post. simpl. fold ro path.
  destruct (Post path ro w) as [[resp|err] w']; reflexivity.
Qed.

(** The sibling [PurgeKey] sets the header on the request it was handed by
    [RawRequest], and sends that request. *)
Lemma PurgeKey_request (i : PurgeKeyInput) (w : W) (log : list call)
    (req : Request) :
  Service i <> "" -> Key i <> "" ->
  RawRequest "POST"
    ("/service/" +:+ Service i +:+ "/purge/" +:+ Key i)
    (Some {| Headers := None; Parallel := true |}) = Ok req ->
  exists (sent : Request) (r : result Purge_t) (w' : W),
    PurgeKey i (w, log) = (Ret r, (w', (log ++ [CallDo sent])%list)) /\
    Header sent !! "Fastly-Soft-Purge" =
      (if KSoft i then Some ["1"] else Header req !! "Fastly-Soft-Purge").
Proof.
  intros Hs Hk Hreq. unfold PurgeKey.
  destruct (decide (Service i = "")) as [Heq|_]; [contradiction|].
  destruct (decide (Key i = "")) as [Heq|_]; [contradiction|].
  simpl. rewrite Hreq. unfold bind, do_Do.
  set (sent := if KSoft i then Header_Set req "Fastly-Soft-Purge" "1" else req).
  destruct (HTTPClient_Do sent w) as [r w'] eqn:Hdo.
  exists sent.
  assert (Hhdr : Header sent !! "Fastly-Soft-Purge" =
                 (if KSoft i then Some ["1"]
                  else Header req !! "Fastly-Soft-Purge")).
  { subst sent. destruct (KSoft i); [apply lookup_insert_eq | reflexivity]. }
  destruct (checkResp r) as [resp|err]; eauto.
Qed.

(** So does the sibling [PurgeAll]. *)
Lemma PurgeAll_request (i : PurgeAllInput) (w : W) (log : list call)
    (req : Request) :
  AService i <> "" ->
  RawRequest "POST" ("/service/" +:+ AService i +:+ "/purge_all") None
    = Ok req ->
  exists (sent : Request) (r : result Purge_t) (w' : W),
    PurgeAll i (w, log) = (Ret r, (w', (log ++ [CallDo sent])%list)) /\
    Header sent !! "Fastly-Soft-Purge" =
      (if ASoft i then Some ["1"] else Header req !! "Fastly-Soft-Purge").
Proof.
  intros Hs Hreq. unfold PurgeAll.
  destruct (decide (AService i = "")) as [Heq|_]; [contradiction|].
  simpl. rewrite Hreq. unfold bind, do_Do.
  set (sent := if ASoft i then Header_Set req "Fastly-Soft-Purge" "1" else req).
  destruct (HTTPClient_Do sent w) as [r w'] eqn:Hdo.
  exists sent.
  assert (Hhdr : Header sent !! "Fastly-Soft-Purge" =
                 (if ASoft i then Some ["1"]
                  else Header req !! "Fastly-Soft-Purge")).
  { subst sent. destruct (ASoft i); [apply lookup_insert_eq | reflexivity]. }
  destruct (checkResp r) as [resp|err]; eauto.
Qed.

End PurgeFacts.

(** A run of C6 on the reference client: three requests with an empty field
    each, from a world in which one path was purged already. *)
Lemma purge_missing_field_run :
  let st : PurgeClient.St := (["purge/a"], []) in
  PurgeClient.Purge {| PurgeClient.URL := ""; PurgeClient.Soft := true |} st
    = (Ret (Err ErrMissingURL), st) /\
  PurgeClient.PurgeKey
    {| PurgeClient.Service := ""; PurgeClient.Key := "k";
       PurgeClient.KSoft := false |} st
    = (Ret (Err ErrMissingService), st) /\
  PurgeClient.PurgeKey
    {| PurgeClient.Service := "svc1"; PurgeClient.Key := "";
       PurgeClient.KSoft := false |} st
    = (Ret (Err ErrMissingKey), st) /\
  PurgeClient.PurgeAll
    {| PurgeClient.AService := ""; PurgeClient.ASoft := true |} st
    = (Ret (Err ErrMissingService), st).
Proof.
  intros st.
  destruct (purge_missing_field_before_any_call (W := list string))
    as (HP & HK1 & HK2 & HA).
  split; [|split; [|split]].
  - apply HP. reflexivity.
  - apply HK1. reflexivity.
  - apply (HK2 {| PurgeClient.Service := "svc1"; PurgeClient.Key := "";
                  PurgeClient.KSoft := false |} st). reflexivity.
  - apply HA. reflexivity.
Defined.

(** The failing run of C1 on the reference client: a soft purge of one URL
    panics and nothing is posted. *)
Lemma Purge_soft_panics_run :
  PurgeClient.Purge
    {| PurgeClient.URL := "https://www.example.com/a.png";
       PurgeClient.Soft := true |} ([], [])
  = (Panic "assignment to entry in nil map", (([] : list string), [])).
Proof.
  apply (Purge_soft_panics (W := list string)).
  - discriminate.
  - reflexivity.
Defined.

(** * Properties of the HTTPS logging block *)

(** ** Building the inputs of the API calls *)

Section BuildFacts.
Import Logging.

Lemma uint_range (n : Z) : 0 <= uint n < 2 ^ 64.
Proof. unfold uint, uint_bits. apply Z.mod_pos_bound. lia. Qed.

Lemma uint_nonneg (n : Z) : 0 <= n < 2 ^ 64 -> uint n = n.
Proof. intros Hn. unfold uint, uint_bits. apply Z.mod_small. exact Hn. Qed.

Lemma uint_neg (n : Z) : - 2 ^ 64 <= n < 0 -> uint n = n + 2 ^ 64.
Proof.
  intros Hn. unfold uint, uint_bits.
  symmetry. apply (Z.mod_unique _ _ (-1)); lia.
Qed.

(** Case analysis on the next map index of the goal or of [Hready]. *)
Ltac next_lookup df :=
  match goal with
  | |- context [df !! ?k] =>
      destruct (df !! k) as [[?s|?n|?n|?b]|] eqn:?
  | H : context [df !! ?k] |- _ =>
      destruct (df !! k) as [[?s|?n|?n|?b]|] eqn:?
  end;
  cbn [obind is_Ret assert_string assert_int has_type andb] in *;
  try discriminate; try reflexivity.

Lemma create_ready_unfold (df : gmap string value) :
  create_ready df = true <->
  forall k sch, (k, sch) ∈ httpsloggingSchema ->
                has_type (Type_ sch) (df !! k) = true.
Proof.
  unfold create_ready. rewrite forallb_forall. split.
  - intros Hall k sch Hin. apply (Hall (k, sch)).
    apply list_elem_of_In. exact Hin.
  - intros Hall [k sch] Hin. apply Hall. apply list_elem_of_In. exact Hin.
Qed.

Lemma create_ready_false (df : gmap string value) :
  create_ready df = false <->
  exists k sch, (k, sch) ∈ httpsloggingSchema /\
                has_type (Type_ sch) (df !! k) = false.
Proof.
  unfold create_ready. split.
  - intros Hf.
    assert (Hex : existsb (fun ks => negb (has_type (Type_ ks.2) (df !! ks.1)))
                    httpsloggingSchema = true).
    { revert Hf. generalize httpsloggingSchema. intros l.
      induction l as [|x l IH]; simpl; [discriminate|].
      destruct (has_type (Type_ x.2) (df !! x.1)); simpl; auto. }
    apply existsb_exists in Hex as ([k sch] & Hin & Hneg).
    exists k, sch. split; [apply list_elem_of_In; exact Hin|].
    apply negb_true_iff. exact Hneg.
  - intros (k & sch & Hin & Hty).
    destruct (forallb _ _) eqn:Hall; [|reflexivity].
    rewrite forallb_forall in Hall.
    apply list_elem_of_In in Hin. apply Hall in Hin.
    cbn [fst snd] in Hin. congruence.
Qed.

(** [buildCreateHTTPS] returns exactly on the maps that are ready, and on no
    other interface value. *)
Lemma buildCreateHTTPS_is_Ret (httpsMap : iface) (sid : string) (ver : Z) :
  is_Ret (buildCreateHTTPS httpsMap sid ver) =
  match httpsMap with IMap df => create_ready df | IVal _ => false end.
Proof.
  destruct httpsMap as [df|v]; [|reflexivity].
  unfold buildCreateHTTPS, create_ready, httpsloggingSchema, required, optional.
  cbn [assert_map obind forallb Type_ fst snd].
  do 18 next_lookup df.
Qed.

Lemma buildDeleteHTTPS_is_Ret (httpsMap : iface) (sid : string) (ver : Z) :
  is_Ret (buildDeleteHTTPS httpsMap sid ver) =
  match httpsMap with IMap df => delete_ready df | IVal _ => false end.
Proof.
  destruct httpsMap as [df|v]; [|reflexivity].
  unfold buildDeleteHTTPS, delete_ready.
  cbn [assert_map obind].
  next_lookup df.
Qed.

Lemma is_Ret_true {A} (o : outcome A) : is_Ret o = true <-> exists a, o = Ret a.
Proof.
  destruct o as [a|msg]; simpl; split; eauto.
  - discriminate.
  - intros [a Ha]. discriminate.
Qed.

Lemma is_Ret_false {A} (o : outcome A) :
  is_Ret o = false <-> exists msg, o = Panic msg.
Proof.
  destruct o as [a|msg]; simpl; split; eauto.
  - discriminate.
  - intros [m Hm]. discriminate.
Qed.

(** C9.  Building a create input returns exactly when the configuration map
    holds every key of the schema with the dynamic type of the schema
    ([string] for the string fields, [int] for [request_max_entries],
    [request_max_bytes] and [format_version]); when some key is missing or
    holds a value of another type it panics.  Building a delete input returns
    exactly when the key ["name"] holds a [string], and panics otherwise. *)
Theorem build_inputs_defined_iff_well_typed
    (df : gmap string value) (sid : string) (ver : Z) :
  ((exists opts, buildCreateHTTPS (IMap df) sid ver = Ret opts) <->
   (forall k sch, (k, sch) ∈ httpsloggingSchema ->
                  has_type (Type_ sch) (df !! k) = true)) /\
  ((exists msg, buildCreateHTTPS (IMap df) sid ver = Panic msg) <->
   (exists k sch, (k, sch) ∈ httpsloggingSchema /\
                  has_type (Type_ sch) (df !! k) = false)) /\
  ((exists opts, buildDeleteHTTPS (IMap df) sid ver = Ret opts) <->
   has_type TypeString (df !! "name") = true) /\
  ((exists msg, buildDeleteHTTPS (IMap df) sid ver = Panic msg) <->
   has_type TypeString (df !! "name") = false).
Proof.
  rewrite <- !is_Ret_true, <- !is_Ret_false.
  rewrite buildCreateHTTPS_is_Ret, buildDeleteHTTPS_is_Ret.
  rewrite <- create_ready_unfold, <- create_ready_false.
  unfold delete_ready. tauto.
Qed.

(** C8.  On a map that holds every key of the schema with its type,
    [buildCreateHTTPS] returns an input whose [Service] and [Version] are the
    arguments, whose string fields are the strings of the map, unchanged, and
    whose three numeric fields are the [int]s of the map converted by
    [uint]. *)
Theorem buildCreateHTTPS_fields
    (df : gmap string value) (sid : string) (ver : Z) :
  create_ready df = true ->
  exists opts,
    buildCreateHTTPS (IMap df) sid ver = Ret opts /\
    CreateHTTPSInput.Service opts = sid /\
    CreateHTTPSInput.Version opts = ver /\
    df !! "name" = Some (VString (CreateHTTPSInput.Name opts)) /\
    df !! "url" = Some (VString (CreateHTTPSInput.URL opts)) /\
    (exists n, df !! "request_max_entries" = Some (VInt n) /\
               CreateHTTPSInput.RequestMaxEntries opts = uint n) /\
    (exists n, df !! "request_max_bytes" = Some (VInt n) /\
               CreateHTTPSInput.RequestMaxBytes opts = uint n) /\
    df !! "content_type" = Some (VString (CreateHTTPSInput.ContentType opts)) /\
    df !! "header_name" = Some (VString (CreateHTTPSInput.HeaderName opts)) /\
    df !! "header_value" = Some (VString (CreateHTTPSInput.HeaderValue opts)) /\
    df !! "method" = Some (VString (CreateHTTPSInput.Method opts)) /\
    df !! "json_format" = Some (VString (CreateHTTPSInput.JSONFormat opts)) /\
    df !! "tls_ca_cert" = Some (VString (CreateHTTPSInput.TLSCACert opts)) /\
    df !! "tls_client_cert"
      = Some (VString (CreateHTTPSInput.TLSClientCert opts)) /\
    df !! "tls_client_key"
      = Some (VString (CreateHTTPSInput.TLSClientKey opts)) /\
    df !! "tls_hostname" = Some (VString (CreateHTTPSInput.TLSHostname opts)) /\
    df !! "format" = Some (VString (CreateHTTPSInput.Format opts)) /\
    (exists n, df !! "format_version" = Some (VInt n) /\
               CreateHTTPSInput.FormatVersion opts = uint n) /\
    df !! "message_type" = Some (VString (CreateHTTPSInput.MessageType opts)) /\
    df !! "placement" = Some (VString (CreateHTTPSInput.Placement opts)) /\
    df !! "response_condition"
      = Some (VString (CreateHTTPSInput.ResponseCondition opts)).
Proof.
  intros Hready.
  unfold create_ready, httpsloggingSchema, required, optional in Hready.
  unfold buildCreateHTTPS.
  cbn [assert_map obind forallb Type_ fst snd] in *.
  do 18 next_lookup df.
  eexists. split; [reflexivity|].
  cbn [CreateHTTPSInput.Service CreateHTTPSInput.Version CreateHTTPSInput.Name
       CreateHTTPSInput.URL CreateHTTPSInput.RequestMaxEntries
       CreateHTTPSInput.RequestMaxBytes CreateHTTPSInput.ContentType
       CreateHTTPSInput.HeaderName CreateHTTPSInput.HeaderValue
       CreateHTTPSInput.Method CreateHTTPSInput.JSONFormat
       CreateHTTPSInput.TLSCACert CreateHTTPSInput.TLSClientCert
       CreateHTTPSInput.TLSClientKey CreateHTTPSInput.TLSHostname
       CreateHTTPSInput.Format CreateHTTPSInput.FormatVersion
       CreateHTTPSInput.MessageType CreateHTTPSInput.Placement
       CreateHTTPSInput.ResponseCondition].
  repeat match goal with
         | |- _ /\ _ => split
         | |- exists _, _ => eexists
         | |- _ = _ => reflexivity
         end.
Qed.

End BuildFacts.

(** ** Flattening the server-side records *)

Section FlattenFacts.
Import Logging.

Lemma prune_range_lookup (order : list (string * value))
    (m : gmap string value) (k : string) :
  prune_range order m !! k = if visits_empty k order then None else m !! k.
Proof.
  revert m. induction order as [|[k' v] order IH]; intros m; [reflexivity|].
  unfold prune_range, visits_empty in *. cbn [foldl existsb fst snd].
  rewrite IH. clear IH.
  destruct (existsb _ order); [by rewrite orb_true_r|].
  rewrite orb_false_r.
  destruct (eq_empty_string v); [|by rewrite andb_false_r].
  rewrite andb_true_r. case_bool_decide as Hk.
  - subst k'. apply lookup_delete_eq.
  - by apply lookup_delete_ne.
Qed.

Lemma visits_empty_perm (k : string) (l1 l2 : list (string * value)) :
  l1 ≡ₚ l2 -> visits_empty k l1 = visits_empty k l2.
Proof.
  unfold visits_empty.
  induction 1 as [|x l1 l2 _ IH|x y l|l1 l2 l3 _ IH1 _ IH2]; simpl.
  - reflexivity.
  - by rewrite IH.
  - by rewrite !orb_assoc, (orb_comm (_ && _) (_ && _)).
  - by rewrite IH1.
Qed.

(** The result of the range does not depend on the order in which the
    entries are visited. *)
Lemma prune_range_any_order (order : list (string * value))
    (nhl : gmap string value) :
  order ≡ₚ map_to_list nhl ->
  prune_range order nhl = prune_range (map_to_list nhl) nhl.
Proof.
  intros Hperm. apply map_eq. intros k.
  by rewrite !prune_range_lookup, (visits_empty_perm k _ _ Hperm).
Qed.

Lemma visits_empty_map_to_list (k : string) (nhl : gmap string value) :
  visits_empty k (map_to_list nhl) =
  match nhl !! k with Some v => eq_empty_string v | None => false end.
Proof.
  unfold visits_empty.
  destruct (existsb _ _) eqn:Hex.
  - apply existsb_exists in Hex as ([k' v] & Hin & Hkv).
    apply andb_prop in Hkv as [Hk Hv]. apply bool_decide_eq_true in Hk.
    simpl in Hk, Hv. subst k'.
    apply list_elem_of_In, elem_of_map_to_list in Hin. by rewrite Hin.
  - destruct (nhl !! k) as [v|] eqn:Hk; [|reflexivity].
    destruct (eq_empty_string v) eqn:Hv; [|reflexivity].
    rewrite <- Hex. apply existsb_exists. exists (k, v). split.
    + apply list_elem_of_In, elem_of_map_to_list. exact Hk.
    + simpl. rewrite Hv. by rewrite bool_decide_eq_true_2.
Qed.

(** One flattened record: the literal without its empty strings. *)
Lemma flatten_one_lookup (hl : HTTPS.t) (k : string) :
  flatten_one hl !! k =
  match literal hl !! k with
  | Some (VString s) => if decide (s = "") then None else Some (VString s)
  | other => other
  end.
Proof.
  unfold flatten_one. cbv zeta.
  rewrite prune_range_lookup, visits_empty_map_to_list.
  destruct (literal hl !! k) as [[s|n|n|b]|]; simpl; try reflexivity.
  destruct (decide (s = "")) as [->|Hs].
  - reflexivity.
  - by rewrite bool_decide_eq_false_2.
Qed.

Lemma flattenHTTPS_fmap (httpsList : list HTTPS.t) :
  flattenHTTPS httpsList = flatten_one <$> httpsList.
Proof.
  unfold flattenHTTPS.
  assert (Hgen : forall acc,
             foldl (fun hsl hl => hsl ++ [flatten_one hl])%list acc httpsList
             = (acc ++ (flatten_one <$> httpsList))%list).
  { induction httpsList as [|hl l IH]; intros acc; simpl.
    - by rewrite app_nil_r.
    - rewrite IH. by rewrite <- app_assoc. }
  apply Hgen.
Qed.

(** C2, as the code has it.  The flattened map of a record holds, under every
    key of the literal, the value of the field, except that a string field
    whose value is the empty string is left out; the three numeric fields are
    always kept, zero or not.  In particular an empty [content_type] leaves
    the map without the key ["content_type"]. *)
Theorem flattenHTTPS_prunes_empty_strings
    (httpsList : list HTTPS.t) (i : nat) (hl : HTTPS.t) :
  httpsList !! i = Some hl ->
  exists m,
    flattenHTTPS httpsList !! i = Some m /\
    (forall k,
        m !! k =
        match literal hl !! k with
        | Some (VString s) => if decide (s = "") then None else Some (VString s)
        | other => other
        end) /\
    m !! "request_max_entries" = Some (VUint (HTTPS.RequestMaxEntries hl)) /\
    m !! "request_max_bytes" = Some (VUint (HTTPS.RequestMaxBytes hl)) /\
    m !! "format_version" = Some (VUint (HTTPS.FormatVersion hl)) /\
    (HTTPS.ContentType hl = "" -> m !! "content_type" = None).
Proof.
  intros Hi. exists (flatten_one hl).
  split; [by rewrite flattenHTTPS_fmap, list_lookup_fmap, Hi|].
  split; [apply flatten_one_lookup|].
  rewrite !flatten_one_lookup.
  repeat split.
  intros Hct.
  change (literal hl !! "content_type")
    with (Some (VString (HTTPS.ContentType hl))).
  rewrite Hct. reflexivity.
Qed.

(** C10.  The pruning makes no exception for the identity fields, which the
    schema marks [Required]: every string field that is empty is left out, so
    a record with an empty [Name] flattens to a map without the key ["name"],
    and one with an empty [URL] to a map without the key ["url"]. *)
Theorem flattenHTTPS_prunes_required_fields
    (httpsList : list HTTPS.t) (i : nat) (hl : HTTPS.t) :
  httpsList !! i = Some hl ->
  exists m,
    flattenHTTPS httpsList !! i = Some m /\
    (forall k, literal hl !! k = Some (VString "") -> m !! k = None) /\
    (HTTPS.Name hl = "" -> m !! "name" = None) /\
    (HTTPS.URL hl = "" -> m !! "url" = None) /\
    (exists sch, ("name", sch) ∈ httpsloggingSchema /\ Required sch = true) /\
    (exists sch, ("url", sch) ∈ httpsloggingSchema /\ Required sch = true).
Proof.
  intros Hi. exists (flatten_one hl).
  split; [by rewrite flattenHTTPS_fmap, list_lookup_fmap, Hi|].
  split; [intros k Hk; by rewrite flatten_one_lookup, Hk|].
  rewrite !flatten_one_lookup.
  change (literal hl !! "name") with (Some (VString (HTTPS.Name hl))).
  change (literal hl !! "url") with (Some (VString (HTTPS.URL hl))).
  split; [by intros ->|]. split; [by intros ->|].
  split; exists (required TypeString); (split; [|reflexivity]);
    unfold httpsloggingSchema; set_solver.
Qed.

End FlattenFacts.

(** ** The reconciler *)

Section BlockFacts.
Import Logging.
Context {Conn : Type} `{API Conn}.

Lemma deleteHTTPS_run (i : DeleteHTTPSInput.t) (c : Conn) (log : list call) :
  deleteHTTPS i (c, log) =
    (Ret (call_result (CallDelete i) c).1,
     ((call_result (CallDelete i) c).2, (log ++ [CallDelete i])%list)).
Proof.
  unfold deleteHTTPS, bind, do_Delete, call_result.
  destruct (DeleteHTTPS i c) as [[[| | |code|msg]|] c']; try reflexivity.
  simpl. destruct (decide (code <> 404)) as [Hne|Heq].
  - destruct (decide (code = 404)); [contradiction|reflexivity].
  - destruct (decide (code = 404)); [reflexivity|].
    exfalso. apply Heq. assumption.
Qed.

Lemma createHTTPS_run (i : CreateHTTPSInput.t) (c : Conn) (log : list call) :
  createHTTPS i (c, log) =
    (Ret (call_result (CallCreate i) c).1,
     ((call_result (CallCreate i) c).2, (log ++ [CallCreate i])%list)).
Proof.
  unfold createHTTPS, bind, do_Create, call_result.
  destruct (CreateHTTPS i c) as [[hl|e] c']; reflexivity.
Qed.

Lemma step_run (k : call) (c : Conn) (log : list call) :
  step k (c, log) =
    (Ret (call_result k c).1, ((call_result k c).2, (log ++ [k])%list)).
Proof. destruct k; [apply deleteHTTPS_run | apply createHTTPS_run]. Qed.

(** C5.  [deleteHTTPS] makes the one call [conn.DeleteHTTPS]; it returns
    [nil] when the call returns [nil] or an [*HTTPError] of status 404, and
    returns the error of the call, unchanged, in every other case. *)
Theorem deleteHTTPS_tolerates_only_404
    (i : DeleteHTTPSInput.t) (c c' : Conn) (log : list call)
    (err : option error) :
  DeleteHTTPS i c = (err, c') ->
  exists r,
    deleteHTTPS i (c, log) = (Ret r, (c', (log ++ [CallDelete i])%list)) /\
    (err = None -> r = None) /\
    (err = Some (HTTPError 404) -> r = None) /\
    (forall e, err = Some e -> e <> HTTPError 404 -> r = Some e).
Proof.
  intros Hcall. unfold deleteHTTPS, bind, do_Delete. rewrite Hcall.
  destruct err as [[| | |code|msg]|]; simpl;
    try (eexists; split; [reflexivity|];
         repeat split; first [discriminate | congruence]).
  destruct (decide (code <> 404)) as [Hne|Heq].
  - eexists; split; [reflexivity|]. repeat split; congruence.
  - eexists; split; [reflexivity|]. repeat split; try congruence.
    intros e [= <-] Hne. exfalso. apply Heq. congruence.
Qed.

(** *** The two loops are one plan *)

Lemma remove_loop_run (sid : string) (ver : Z) (l : list iface) (st : St) :
  remove_loop sid ver l st = run (plan_delete sid ver <$> l) st.
Proof.
  revert st. induction l as [|oRaw l IH]; intros st; [reflexivity|].
  cbn [remove_loop run fmap list_fmap]. unfold bind, lift, plan_delete.
  destruct oRaw as [df|v]; [|reflexivity].
  cbn [assert_map obind].
  destruct (buildDeleteHTTPS (IMap df) sid ver) as [opts|msg]; [|reflexivity].
  cbn [obind step].
  destruct (deleteHTTPS opts st) as [[[e|]|msg] st']; try reflexivity.
  apply IH.
Qed.

Lemma add_loop_run (sid : string) (ver : Z) (l : list iface) (st : St) :
  add_loop sid ver l st = run (plan_create sid ver <$> l) st.
Proof.
  revert st. induction l as [|nRaw l IH]; intros st; [reflexivity|].
  cbn [add_loop run fmap list_fmap]. unfold bind, lift, plan_create.
  destruct nRaw as [df|v]; [|reflexivity].
  cbn [assert_map obind].
  destruct (buildCreateHTTPS (IMap df) sid ver) as [opts|msg]; [|reflexivity].
  cbn [obind step].
  destruct (createHTTPS opts st) as [[[e|]|msg] st']; try reflexivity.
  apply IH.
Qed.

Lemma run_app (p1 p2 : list (outcome call)) (st : St) :
  run (p1 ++ p2) st =
  (err <~ run p1 ;;
   match err with
   | Some e => ret (Some e)
   | None => run p2
   end) st.
Proof.
  revert st. induction p1 as [|item p1 IH]; intros st; [reflexivity|].
  cbn [app run]. unfold bind, lift.
  destruct item as [k|msg]; [|reflexivity].
  destruct (step k st) as [[[e|]|msg] st']; try reflexivity.
  rewrite IH. reflexivity.
Qed.

Lemma processHTTPS_run (d : schema.ResourceData) (ver : Z) (st : St) :
  processHTTPS d ver st = run (planned d ver) st.
Proof.
  unfold processHTTPS, planned. rewrite run_app.
  unfold bind. rewrite remove_loop_run.
  destruct (run _ st) as [[[e|]|msg] st']; try reflexivity.
  rewrite add_loop_run.
  destruct (run _ st') as [[[e|]|msg] st'']; reflexivity.
Qed.

(** *** What a plan does *)

Lemma exec_snoc (tr : list call) (k : call) (c : Conn) :
  exec (tr ++ [k]) c = (call_result k (exec tr c)).2.
Proof. unfold exec. by rewrite foldl_app. Qed.

Lemma run_all_ok (tr : list call) (c : Conn) (log : list call) :
  all_ok tr c ->
  run (Ret <$> tr) (c, log) = (Ret None, (exec tr c, (log ++ tr)%list)).
Proof.
  revert c log. induction tr as [|k tr IH]; intros c log Hok.
  - simpl. unfold ret. by rewrite app_nil_r.
  - destruct Hok as [Hk Hok].
    cbn [fmap list_fmap run]. unfold bind, lift. rewrite step_run, Hk.
    rewrite (IH _ _ Hok). by rewrite <- app_assoc.
Qed.

Lemma run_first_error (done rest : list (outcome call)) (tr : list call)
    (last : call) (e : error) (c : Conn) (log : list call) :
  done = Ret <$> tr -> all_ok tr c ->
  (call_result last (exec tr c)).1 = Some e ->
  run (done ++ Ret last :: rest) (c, log) =
    (Ret (Some e), (exec (tr ++ [last]) c, (log ++ tr ++ [last])%list)).
Proof.
  intros -> Hok Hlast. rewrite run_app. unfold bind.
  rewrite (run_all_ok _ _ _ Hok).
  cbn [run]. unfold bind, lift. rewrite step_run, Hlast.
  unfold ret. by rewrite exec_snoc, <- app_assoc.
Qed.

Lemma run_panic (rest : list (outcome call)) (tr : list call)
    (msg : string) (c : Conn) (log : list call) :
  all_ok tr c ->
  run ((Ret <$> tr) ++ Panic msg :: rest) (c, log) =
    (Panic msg, (exec tr c, (log ++ tr)%list)).
Proof.
  intros Hok. rewrite run_app. unfold bind.
  by rewrite (run_all_ok _ _ _ Hok).
Qed.

(** Every run is one of the three above. *)
Lemma run_inv (plan : list (outcome call)) (c : Conn) :
  (exists tr, plan = Ret <$> tr /\ all_ok tr c) \/
  (exists tr last rest e,
      plan = (Ret <$> tr) ++ Ret last :: rest /\ all_ok tr c /\
      (call_result last (exec tr c)).1 = Some e) \/
  (exists tr msg rest,
      plan = (Ret <$> tr) ++ Panic msg :: rest /\ all_ok tr c).
Proof.
  revert c. induction plan as [|item plan IH]; intros c.
  - left. exists []. by split.
  - destruct item as [k|msg].
    2:{ right; right. exists [], msg, plan. by split. }
    destruct (call_result k c) as [[e|] c'] eqn:Hk.
    { right; left. exists [], k, plan, e. repeat split. simpl. by rewrite Hk. }
    destruct (IH c') as [(tr & -> & Hok)
                        |[(tr & last & rest & e & -> & Hok & He)
                         |(tr & msg & rest & -> & Hok)]].
    + left. exists (k :: tr). split; [reflexivity|].
      simpl. by rewrite Hk.
    + right; left. exists (k :: tr), last, rest, e.
      split; [reflexivity|]. simpl. unfold exec in *. simpl. by rewrite Hk.
    + right; right. exists (k :: tr), msg, rest.
      split; [reflexivity|]. simpl. by rewrite Hk.
Qed.

(** The calls a run issues are a prefix of its plan, and the remote
    configuration it leaves is the one those calls produce. *)
Lemma run_trace (plan : list (outcome call)) (c : Conn) (log : list call) :
  exists issued rest,
    (run plan (c, log)).2 = (exec issued c, log ++ issued) /\
    plan = (Ret <$> issued) ++ rest.
Proof.
  destruct (run_inv plan c) as [(tr & -> & Hok)
                               |[(tr & last & rest & e & -> & Hok & He)
                                |(tr & msg & rest & -> & Hok)]].
  - exists tr, []. rewrite (run_all_ok _ _ _ Hok). by rewrite app_nil_r.
  - exists (tr ++ [last]), rest.
    rewrite (run_first_error _ _ tr last e c log eq_refl Hok He).
    split; [reflexivity|]. by rewrite fmap_app, <- app_assoc.
  - exists tr, (Panic msg :: rest). by rewrite (run_panic _ _ _ _ _ Hok).
Qed.

Lemma plan_delete_Ret (sid : string) (ver : Z) (x : iface) (k : call) :
  plan_delete sid ver x = Ret k -> exists opts, k = CallDelete opts.
Proof.
  unfold plan_delete. destruct x as [df|v]; [|discriminate].
  cbn [assert_map obind].
  destruct (buildDeleteHTTPS _ _ _) as [opts|msg]; [|discriminate].
  intros [= <-]. by exists opts.
Qed.

Lemma plan_create_Ret (sid : string) (ver : Z) (x : iface) (k : call) :
  plan_create sid ver x = Ret k -> exists opts, k = CallCreate opts.
Proof.
  unfold plan_create. destruct x as [df|v]; [|discriminate].
  cbn [assert_map obind].
  destruct (buildCreateHTTPS _ _ _) as [opts|msg]; [|discriminate].
  intros [= <-]. by exists opts.
Qed.

Lemma issued_creates (sid : string) (ver : Z) (adds : list iface)
    (issued : list call) (rest : list (outcome call)) :
  (Ret <$> issued) ++ rest = plan_create sid ver <$> adds ->
  exists cs, issued = CallCreate <$> cs.
Proof.
  revert adds. induction issued as [|k issued IH]; intros adds Heq.
  - by exists [].
  - destruct adds as [|x adds]; [discriminate|].
    cbn [fmap list_fmap app] in Heq. injection Heq as Hk Hrest.
    symmetry in Hk. apply plan_create_Ret in Hk as [opts ->].
    destruct (IH _ Hrest) as [cs ->]. by exists (opts :: cs).
Qed.

Lemma issued_deletes_then_creates (sid : string) (ver : Z)
    (removes adds : list iface) (issued : list call)
    (rest : list (outcome call)) :
  (Ret <$> issued) ++ rest =
    (plan_delete sid ver <$> removes) ++ (plan_create sid ver <$> adds) ->
  exists ds cs,
    issued = (CallDelete <$> ds) ++ (CallCreate <$> cs) /\
    (cs <> [] ->
     (fun i => Ret (CallDelete i)) <$> ds = plan_delete sid ver <$> removes).
Proof.
  revert issued. induction removes as [|x removes IH]; intros issued Heq.
  - destruct (issued_creates _ _ _ _ _ Heq) as [cs ->]. by exists [], cs.
  - destruct issued as [|k issued].
    { by exists [], []. }
    cbn [fmap list_fmap app] in Heq. injection Heq as Hk Hrest.
    symmetry in Hk. destruct (plan_delete_Ret _ _ _ _ Hk) as [opts ->].
    destruct (IH _ Hrest) as (ds & cs & -> & Hall).
    exists (opts :: ds), cs. split; [reflexivity|].
    intros Hcs. cbn [fmap list_fmap]. by rewrite Hk, (Hall Hcs).
Qed.

Lemma difference_singletons (A B : iface) :
  A <> B -> schema.List (schema.Difference {[A]} {[B]}) = [A].
Proof.
  intros Hne. unfold schema.List, schema.Difference.
  assert (Hd : ({[A]} ∖ {[B]} : gset iface) = {[A]}).
  { apply set_eq. intros x.
    rewrite elem_of_difference, !elem_of_singleton. intuition congruence. }
  rewrite Hd. apply elements_singleton.
Qed.

(** C4.  In every invocation the calls issued are delete calls followed by
    create calls, and once a create call has been issued every removed entry
    has had its delete call.  When one entry is replaced by a different one
    (a rename, or a change of any field), the calls are the delete of the old
    entry and then, when that delete reports no error, the create of the new
    one; the block has no other call to make. *)
Theorem processHTTPS_deletes_before_creates
    (d : schema.ResourceData) (ver : Z) (c : Conn) (log : list call) :
  (exists ds cs,
      (processHTTPS d ver (c, log)).2.2
        = log ++ (CallDelete <$> ds) ++ (CallCreate <$> cs) /\
      (cs <> [] ->
       (fun i => Ret (CallDelete i)) <$> ds
         = plan_delete (schema.Id d) ver <$> removeHTTPSLogging d)) /\
  (forall A B : gmap string value,
      A <> B ->
      schema.GetChange d "httpslogging"
        = (Some {[IMap A]}, Some {[IMap B]}) ->
      delete_ready A = true -> create_ready B = true ->
      exists a b,
        buildDeleteHTTPS (IMap A) (schema.Id d) ver = Ret a /\
        buildCreateHTTPS (IMap B) (schema.Id d) ver = Ret b /\
        ((call_result (CallDelete a) c).1 = None ->
         (processHTTPS d ver (c, log)).2.2
           = log ++ [CallDelete a; CallCreate b]) /\
        (forall e, (call_result (CallDelete a) c).1 = Some e ->
           processHTTPS d ver (c, log)
             = (Ret (Some e),
                ((call_result (CallDelete a) c).2, log ++ [CallDelete a])))).
Proof.
  split.
  - rewrite processHTTPS_run.
    destruct (run_trace (planned d ver) c log)
      as (issued & rest & Hrun & Hplan).
    unfold planned in Hplan. symmetry in Hplan.
    destruct (issued_deletes_then_creates _ _ _ _ _ _ Hplan)
      as (ds & cs & -> & Hall).
    exists ds, cs. by rewrite Hrun.
  - intros A B Hne Hchange HA HB.
    assert (Ha : exists a, buildDeleteHTTPS (IMap A) (schema.Id d) ver = Ret a).
    { apply is_Ret_true. by rewrite buildDeleteHTTPS_is_Ret. }
    assert (Hb : exists b, buildCreateHTTPS (IMap B) (schema.Id d) ver = Ret b).
    { apply is_Ret_true. by rewrite buildCreateHTTPS_is_Ret. }
    destruct Ha as [a Ha], Hb as [b Hb]. exists a, b.
    split; [exact Ha|]. split; [exact Hb|].
    assert (Hplan : planned d ver = [Ret (CallDelete a); Ret (CallCreate b)]).
    { unfold planned, removeHTTPSLogging, addHTTPSLogging.
      rewrite Hchange. cbn [default from_option id].
      rewrite !difference_singletons by congruence.
      cbn [fmap list_fmap app]. unfold plan_delete, plan_create.
      cbn [assert_map obind]. by rewrite Ha, Hb. }
    rewrite processHTTPS_run, Hplan. split.
    + intros Hok. cbn [run]. unfold bind, lift.
      rewrite step_run, Hok. cbv beta iota. rewrite step_run.
      unfold ret. destruct (call_result (CallCreate b) _).1;
        cbn [snd]; by rewrite <- app_assoc.
    + intros e He. cbn [run]. unfold bind, lift. by rewrite step_run, He.
Qed.

(** C7.  When the calls planned are [tr], then [last], then [rest], the calls
    of [tr] report no error and [last] reports [e], then [processHTTPS]
    returns [e], has issued [tr] and [last] and nothing of [rest], and leaves
    the remote configuration as [tr] and [last] made it.  Every return of an
    error is of this kind. *)
Theorem processHTTPS_aborts_on_first_error
    (d : schema.ResourceData) (ver : Z) (c : Conn) (log : list call) :
  (forall tr last rest e,
      planned d ver = (Ret <$> tr) ++ Ret last :: rest ->
      all_ok tr c ->
      (call_result last (exec tr c)).1 = Some e ->
      processHTTPS d ver (c, log)
        = (Ret (Some e), (exec (tr ++ [last]) c, log ++ tr ++ [last]))) /\
  (forall e st',
      processHTTPS d ver (c, log) = (Ret (Some e), st') ->
      exists tr last rest,
        planned d ver = (Ret <$> tr) ++ Ret last :: rest /\
        all_ok tr c /\
        (call_result last (exec tr c)).1 = Some e /\
        st' = (exec (tr ++ [last]) c, log ++ tr ++ [last])).
Proof.
  split.
  - intros tr last rest e Hplan Hok He.
    rewrite processHTTPS_run, Hplan.
    by apply run_first_error.
  - intros e st'. rewrite processHTTPS_run.
    destruct (run_inv (planned d ver) c)
      as [(tr & -> & Hok)
         |[(tr & last & rest & e' & -> & Hok & He)
          |(tr & msg & rest & -> & Hok)]].
    + rewrite (run_all_ok _ _ _ Hok). discriminate.
    + rewrite (run_first_error _ _ tr last e' c log eq_refl Hok He).
      intros [= <- <-]. by exists tr, last, rest.
    + rewrite (run_panic _ _ _ _ _ Hok). discriminate.
Qed.

(** C3.  The entries to remove are those of the old set that are not in the
    new one, the entries to add those of the new set that are not in the old
    one, each listed once, an absent set counting as empty and entries being
    compared whole.  For [old = {A, B}] and [new = {B, C}] the removals are
    [A] alone and the additions [C] alone, and the plan holds one item for
    [A] and one for [C]: none for [B]. *)
Theorem processHTTPS_set_differences (d : schema.ResourceData) :
  let old := default schema.new_Set (schema.GetChange d "httpslogging").1 in
  let new := default schema.new_Set (schema.GetChange d "httpslogging").2 in
  (forall x, x ∈ removeHTTPSLogging d <-> x ∈ old /\ x ∉ new) /\
  NoDup (removeHTTPSLogging d) /\
  (forall x, x ∈ addHTTPSLogging d <-> x ∈ new /\ x ∉ old) /\
  NoDup (addHTTPSLogging d) /\
  (forall A B C : iface,
      A <> B -> B <> C -> A <> C ->
      old = {[A; B]} -> new = {[B; C]} ->
      removeHTTPSLogging d = [A] /\
      addHTTPSLogging d = [C] /\
      forall ver,
        planned d ver = [plan_delete (schema.Id d) ver A;
                         plan_create (schema.Id d) ver C]).
Proof.
  intros old new. subst old new.
  unfold planned, removeHTTPSLogging, addHTTPSLogging.
  destruct (schema.GetChange d "httpslogging") as [oh nh]. cbn [fst snd].
  set (old := default schema.new_Set oh).
  set (new := default schema.new_Set nh).
  unfold schema.List, schema.Difference.
  split; [intros x; by rewrite elem_of_elements, elem_of_difference|].
  split; [apply NoDup_elements|].
  split; [intros x; by rewrite elem_of_elements, elem_of_difference|].
  split; [apply NoDup_elements|].
  intros A B C HAB HBC HAC -> ->.
  assert (Hrm : ({[A; B]} ∖ {[B; C]} : gset iface) = {[A]}).
  { apply set_eq. intros x.
    rewrite elem_of_difference, !elem_of_union, !elem_of_singleton.
    intuition congruence. }
  assert (Hadd : ({[B; C]} ∖ {[A; B]} : gset iface) = {[C]}).
  { apply set_eq. intros x.
    rewrite elem_of_difference, !elem_of_union, !elem_of_singleton.
    intuition congruence. }
  rewrite Hrm, Hadd, !elements_singleton. by repeat split.
Qed.

End BlockFacts.

(** * Runs on the reference collaborators *)

Section Runs.
Import Logging Reference.

(** Closes a goal that the definitions decide by evaluation. *)
Ltac by_evaluation :=
  first [ apply (proj1 (bool_decide_eq_true _))
        | apply (proj1 (bool_decide_eq_false _)) ];
  vm_compute; reflexivity.

(** The three methods on the reference client.  A hard purge of a URL posts
    options without headers; a soft purge by key or of a whole service sends
    the request with the header set. *)
Example Purge_hard_run :
  PurgeClient.Purge
    {| PurgeClient.URL := "www.example.com/a.png";
       PurgeClient.Soft := false |} ([], [])
  = (Ret (Ok {| PurgeClient.Status := "ok";
                PurgeClient.ID := "purge/www.example.com/a.png" |}),
     (["purge/www.example.com/a.png"],
      [PurgeClient.CallPost "purge/www.example.com/a.png"
         {| PurgeClient.Headers := None; PurgeClient.Parallel := true |}])).
Proof. vm_compute. reflexivity. Qed.

Example PurgeKey_soft_run :
  (PurgeClient.PurgeKey
     {| PurgeClient.Service := "svc1"; PurgeClient.Key := "k1";
        PurgeClient.KSoft := true |} ([], [])).2.2
  = [PurgeClient.CallDo
       {| PurgeClient.Verb := "POST";
          PurgeClient.Path := "/service/svc1/purge/k1";
          PurgeClient.Header :=
            <["Fastly-Soft-Purge" := ["1"]]>
              (<["User-Agent" := ["FastlyGo"]]> ∅) |}].
Proof. vm_compute. reflexivity. Qed.

Example PurgeAll_hard_run :
  (PurgeClient.PurgeAll
     {| PurgeClient.AService := "svc1"; PurgeClient.ASoft := false |}
     ([], [])).2.2
  = [PurgeClient.CallDo
       {| PurgeClient.Verb := "POST";
          PurgeClient.Path := "/service/svc1/purge_all";
          PurgeClient.Header := <["User-Agent" := ["FastlyGo"]]> ∅ |}].
Proof. vm_compute. reflexivity. Qed.

(** C9 at two maps: a complete entry, and the same entry without its
    ["url"]. *)
Lemma build_inputs_run :
  (exists opts,
      buildCreateHTTPS (IMap (entry "a" "https://a.example.com")) "svc1" 3
        = Ret opts) /\
  (exists msg,
      buildCreateHTTPS
        (IMap (delete "url" (entry "a" "https://a.example.com"))) "svc1" 3
        = Panic msg) /\
  (exists opts,
      buildDeleteHTTPS
        (IMap (delete "url" (entry "a" "https://a.example.com"))) "svc1" 3
        = Ret opts).
Proof.
  split; [|split].
  - apply (build_inputs_defined_iff_well_typed
             (entry "a" "https://a.example.com") "svc1" 3).
    apply create_ready_unfold. vm_compute. reflexivity.
  - apply (build_inputs_defined_iff_well_typed
             (delete "url" (entry "a" "https://a.example.com")) "svc1" 3).
    apply create_ready_false. vm_compute. reflexivity.
  - apply (build_inputs_defined_iff_well_typed
             (delete "url" (entry "a" "https://a.example.com")) "svc1" 3).
    vm_compute. reflexivity.
Defined.

(** C8 at an entry whose [request_max_entries] is negative: the strings pass
    through, the number wraps around. *)
Lemma buildCreateHTTPS_fields_run :
  exists opts,
    buildCreateHTTPS
      (IMap (<["request_max_entries" := VInt (-1)]>
               (entry "a" "https://a.example.com"))) "svc1" 3 = Ret opts /\
    CreateHTTPSInput.Name opts = "a" /\
    CreateHTTPSInput.URL opts = "https://a.example.com" /\
    CreateHTTPSInput.RequestMaxEntries opts = 18446744073709551615 /\
    CreateHTTPSInput.FormatVersion opts = 2.
Proof.
  set (df := <["request_max_entries" := VInt (-1)]>
               (entry "a" "https://a.example.com")).
  destruct (buildCreateHTTPS_fields df "svc1" 3)
    as (opts & Hbuild & _ & _ & Hname & Hurl & (n & Hn & Hentries) & _ & _ & _
        & _ & _ & _ & _ & _ & _ & _ & _ & (v & Hv & Hversion) & _);
    [vm_compute; reflexivity|].
  exists opts. split; [exact Hbuild|].
  assert (E1 : df !! "name" = Some (VString "a"))
    by (vm_compute; reflexivity).
  assert (E2 : df !! "url" = Some (VString "https://a.example.com"))
    by (vm_compute; reflexivity).
  assert (E3 : df !! "request_max_entries" = Some (VInt (-1)))
    by (vm_compute; reflexivity).
  assert (E4 : df !! "format_version" = Some (VInt 2))
    by (vm_compute; reflexivity).
  rewrite E1 in Hname. rewrite E2 in Hurl. rewrite E3 in Hn. rewrite E4 in Hv.
  injection Hname as Hname. injection Hurl as Hurl.
  injection Hn as Hn. injection Hv as Hv.
  rewrite Hentries, Hversion, <- Hn, <- Hv, <- Hname, <- Hurl.
  repeat split.
Defined.

(** C2 at a record with an empty [content_type]. *)
Lemma flattenHTTPS_empty_content_type_run :
  exists m,
    flattenHTTPS [record "logs" "https://logs.example.com" "" 100] !! 0%nat
      = Some m /\
    m !! "content_type" = None /\
    m !! "request_max_entries" = Some (VUint 100).
Proof.
  destruct (flattenHTTPS_prunes_empty_strings
              [record "logs" "https://logs.example.com" "" 100] 0
              (record "logs" "https://logs.example.com" "" 100) eq_refl)
    as (m & Hm & _ & Hentries & _ & _ & Hct).
  exists m. split; [exact Hm|]. split; [apply Hct; reflexivity|exact Hentries].
Defined.

(** C2 as stated fails: a record whose [request_max_entries] is zero, the
    zero value of its type, flattens to a map that holds the key. *)
Lemma flattenHTTPS_keeps_zero_number :
  let hl := record "logs" "https://logs.example.com" "text/plain" 0 in
  literal hl !! "request_max_entries" = Some (VUint 0) /\
  is_zero_value (VUint 0) = true /\
  exists m,
    flattenHTTPS [hl] = [m] /\
    m !! "request_max_entries" = Some (VUint 0).
Proof.
  split; [vm_compute; reflexivity|]. split; [reflexivity|].
  eexists. split; [reflexivity|]. vm_compute. reflexivity.
Qed.

(** C10 at a record without name and one without URL. *)
Lemma flattenHTTPS_empty_name_run :
  exists m1 m2,
    flattenHTTPS [record "" "https://logs.example.com" "" 0;
                  record "logs" "" "" 0] = [m1; m2] /\
    m1 !! "name" = None /\ m2 !! "url" = None.
Proof.
  destruct (flattenHTTPS_prunes_required_fields
              [record "" "https://logs.example.com" "" 0;
               record "logs" "" "" 0] 0
              (record "" "https://logs.example.com" "" 0) eq_refl)
    as (m1 & Hm1 & _ & Hname & _).
  destruct (flattenHTTPS_prunes_required_fields
              [record "" "https://logs.example.com" "" 0;
               record "logs" "" "" 0] 1
              (record "logs" "" "" 0) eq_refl)
    as (m2 & Hm2 & _ & _ & Hurl & _).
  exists m1, m2. split; [|split; [apply Hname | apply Hurl]; reflexivity].
  rewrite flattenHTTPS_fmap in *. cbn [fmap list_fmap lookup list_lookup] in *.
  congruence.
Defined.

(** C5 on the reference server: deleting an endpoint that is not there is
    answered 404 and reported as [nil]; on a locked version the answer is 422
    and is reported. *)
Lemma deleteHTTPS_run_404_and_422 :
  (exists r,
      deleteHTTPS (delete_input "a") (server_with false [], [])
        = (Ret r, (server_with false [], [CallDelete (delete_input "a")])) /\
      r = None) /\
  (exists r,
      deleteHTTPS (delete_input "a") (server_with true ["a"], [])
        = (Ret r, (server_with true ["a"], [CallDelete (delete_input "a")])) /\
      r = Some (HTTPError 422)).
Proof.
  split.
  - assert (Hcall : DeleteHTTPS (delete_input "a") (server_with false [])
                    = (Some (HTTPError 404), server_with false []))
      by (vm_compute; reflexivity).
    destruct (deleteHTTPS_tolerates_only_404 _ _ _ [] _ Hcall)
      as (r & Hrun & _ & H404 & _).
    exists r. split; [exact Hrun | apply H404; reflexivity].
  - assert (Hcall : DeleteHTTPS (delete_input "a") (server_with true ["a"])
                    = (Some (HTTPError 422), server_with true ["a"]))
      by (vm_compute; reflexivity).
    destruct (deleteHTTPS_tolerates_only_404 _ _ _ [] _ Hcall)
      as (r & Hrun & _ & _ & Hother).
    exists r. split; [exact Hrun | apply Hother; [reflexivity | discriminate]].
Defined.

(** C3 on three entries that differ in name and URL. *)
Lemma processHTTPS_set_differences_run :
  let A := IMap (entry "a" "https://a.example.com") in
  let B := IMap (entry "b" "https://b.example.com") in
  let C := IMap (entry "c" "https://c.example.com") in
  let d := change {[A; B]} {[B; C]} in
  removeHTTPSLogging d = [A] /\ addHTTPSLogging d = [C].
Proof.
  intros A B C d.
  destruct (processHTTPS_set_differences d) as (_ & _ & _ & _ & Hexample).
  destruct (Hexample A B C) as (Hremove & Hadd & _).
  - by_evaluation.
  - by_evaluation.
  - by_evaluation.
  - reflexivity.
  - reflexivity.
  - split; assumption.
Defined.

(** C4 on a rename: the endpoint ["a"] becomes ["b"], nothing else changes,
    and the server holds ["a"]. *)
Lemma processHTTPS_rename_run :
  let d := change {[IMap (entry "a" "https://logs.example.com")]}
                  {[IMap (entry "b" "https://logs.example.com")]} in
  (processHTTPS d 3 (server_with false ["a"], [])).2.2
  = [CallDelete (delete_input "a");
     CallCreate (create_input "b" "https://logs.example.com")].
Proof.
  intros d.
  destruct (processHTTPS_deletes_before_creates
              d 3 (server_with false ["a"]) []) as [_ Hrename].
  destruct (Hrename (entry "a" "https://logs.example.com")
                    (entry "b" "https://logs.example.com"))
    as (a & b & Ha & Hb & Hok & _).
  - by_evaluation.
  - reflexivity.
  - vm_compute. reflexivity.
  - vm_compute. reflexivity.
  - assert (Ea : buildDeleteHTTPS
                   (IMap (entry "a" "https://logs.example.com")) (schema.Id d) 3
                 = Ret (delete_input "a")) by (vm_compute; reflexivity).
    assert (Eb : buildCreateHTTPS
                   (IMap (entry "b" "https://logs.example.com")) (schema.Id d) 3
                 = Ret (create_input "b" "https://logs.example.com"))
      by (vm_compute; reflexivity).
    rewrite Ea in Ha. rewrite Eb in Hb.
    injection Ha as <-. injection Hb as <-.
    apply Hok. vm_compute. reflexivity.
Defined.

(** C7 on a change that removes ["a"] and adds ["b"] and ["c"], against a
    server that holds ["a"] and ["c"]: the delete succeeds, the create of
    ["c"], planned next, is refused with 409, and ["b"] is never sent. *)
Lemma processHTTPS_aborts_run :
  let d := change {[IMap (entry "a" "https://a.example.com")]}
                  {[IMap (entry "b" "https://b.example.com");
                    IMap (entry "c" "https://c.example.com")]} in
  let issued := [CallDelete (delete_input "a");
                 CallCreate (create_input "c" "https://c.example.com")] in
  processHTTPS d 3 (server_with false ["a"; "c"], [])
  = (Ret (Some (HTTPError 409)),
     (exec issued (server_with false ["a"; "c"]), issued)).
Proof.
  intros d issued.
  apply (proj1 (processHTTPS_aborts_on_first_error
                  d 3 (server_with false ["a"; "c"]) []))
    with (tr := [CallDelete (delete_input "a")])
         (last := CallCreate (create_input "c" "https://c.example.com"))
         (rest := [Ret (CallCreate
                          (create_input "b" "https://b.example.com"))]).
  - vm_compute. reflexivity.
  - split; [vm_compute; reflexivity | exact I].
  - vm_compute. reflexivity.
Defined.

End Runs.

(** * Further properties of the purge client *)

Section PurgeMore.
Import PurgeClient.
Context {W : Type} `{Client W}.

Lemma string_app_assoc (a b c : string) : (a +:+ b) +:+ c = a +:+ (b +:+ c).
Proof.
  induction a as [|x a IH]; [reflexivity|].
  change (String x ((a +:+ b) +:+ c) = String x (a +:+ (b +:+ c))).
  f_equal. exact IH.
Qed.

Lemma string_app_nonempty_l (a b : string) : a <> "" -> a +:+ b <> "".
Proof.
  destruct a as [|x a]; [contradiction|].
  intros _. change (String x (a +:+ b) <> ""). discriminate.
Qed.

Lemma string_app_nonempty_r (a b : string) : b <> "" -> a +:+ b <> "".
Proof.
  destruct a as [|x a]; [trivial|].
  intros _. change (String x (a +:+ b) <> ""). discriminate.
Qed.

Lemma no_call (w : W) (log : list call) : at_most_one_call w log (w, log).
Proof.
  exists []. split; [by rewrite app_nil_r|]. split; [simpl; lia|reflexivity].
Qed.

Lemma one_call (w w' : W) (log : list call) (k : call) :
  at_most_one_call w log (w', log ++ [k]).
Proof.
  exists [k]. split; [reflexivity|]. split; [simpl; lia|discriminate].
Qed.

(** X1.  Whatever the client answers, a purge method sends at most one
    request: nothing is retried, and when nothing is sent the remote world
    is as before. *)
Theorem purge_at_most_one_call (w : W) (log : list call) :
  (forall i, at_most_one_call w log (Purge i (w, log)).2) /\
  (forall i, at_most_one_call w log (PurgeKey i (w, log)).2) /\
  (forall i, at_most_one_call w log (PurgeAll i (w, log)).2).
Proof.
  split; [|split]; intros i.
  - unfold Purge. destruct (decide (URL i = "")); [apply no_call|].
    destruct (Soft i); [apply no_call|].
    unfold bind, ret, do_Post. cbn.
    destruct (Post _ _ w) as [[resp|err] w']; apply one_call.
  - unfold PurgeKey. destruct (decide (Service i = "")); [apply no_call|].
    destruct (decide (Key i = "")); [apply no_call|].
    cbv zeta. destruct (RawRequest _ _ _) as [req|err]; [|apply no_call].
    unfold bind, do_Do.
    destruct (HTTPClient_Do _ w) as [r w'].
    destruct (checkResp r); apply one_call.
  - unfold PurgeAll. destruct (decide (AService i = "")); [apply no_call|].
    cbv zeta. destruct (RawRequest _ _ _) as [req|err]; [|apply no_call].
    unfold bind, do_Do.
    destruct (HTTPClient_Do _ w) as [r w'].
    destruct (checkResp r); apply one_call.
Qed.

(** X2.  When [RawRequest] fails to build the request, [PurgeKey] and
    [PurgeAll] return its error and send nothing. *)
Theorem purge_request_build_error (e : error) (st : St) :
  (forall i,
      Service i <> "" -> Key i <> "" ->
      RawRequest "POST" ("/service/" +:+ Service i +:+ "/purge/" +:+ Key i)
        (Some {| Headers := None; Parallel := true |}) = Err e ->
      PurgeKey i st = (Ret (Err e), st)) /\
  (forall i,
      AService i <> "" ->
      RawRequest "POST" ("/service/" +:+ AService i +:+ "/purge_all") None
        = Err e ->
      PurgeAll i st = (Ret (Err e), st)).
Proof.
  split.
  - intros i Hs Hk Hraw. unfold PurgeKey.
    destruct (decide (Service i = "")); [contradiction|].
    destruct (decide (Key i = "")); [contradiction|].
    cbn. by rewrite Hraw.
  - intros i Hs Hraw. unfold PurgeAll.
    destruct (decide (AService i = "")); [contradiction|].
    cbn. by rewrite Hraw.
Qed.

(** The request a soft flag turns [req] into. *)
Lemma soft_request_frame (soft : bool) (req : Request) :
  let sent := if soft then Header_Set req "Fastly-Soft-Purge" "1" else req in
  Verb sent = Verb req /\ Path sent = Path req /\
  (forall k, k <> "Fastly-Soft-Purge" ->
             Header sent !! k = Header req !! k) /\
  (soft = false -> sent = req) /\
  (soft = true -> Header sent !! "Fastly-Soft-Purge" = Some ["1"]).
Proof.
  destruct soft; cbn.
  - repeat split; try discriminate.
    + intros k Hk. by apply lookup_insert_ne.
    + intros _. apply lookup_insert_eq.
  - repeat split. discriminate.
Qed.

(** X3.  [PurgeKey] and [PurgeAll] send the request that [RawRequest] built:
    unchanged without [Soft], and with [Soft] changed in the one header
    [Fastly-Soft-Purge], whose former values are replaced by ["1"]; method,
    path and every other header stay. *)
Theorem purge_soft_touches_one_header (w : W) (log : list call)
    (req : Request) :
  (forall i,
      Service i <> "" -> Key i <> "" ->
      RawRequest "POST" ("/service/" +:+ Service i +:+ "/purge/" +:+ Key i)
        (Some {| Headers := None; Parallel := true |}) = Ok req ->
      exists sent,
        (PurgeKey i (w, log)).2
          = ((HTTPClient_Do sent w).2, log ++ [CallDo sent]) /\
        Verb sent = Verb req /\ Path sent = Path req /\
        (forall k, k <> "Fastly-Soft-Purge" ->
                   Header sent !! k = Header req !! k) /\
        (KSoft i = false -> sent = req) /\
        (KSoft i = true ->
         Header sent !! "Fastly-Soft-Purge" = Some ["1"])) /\
  (forall i,
      AService i <> "" ->
      RawRequest "POST" ("/service/" +:+ AService i +:+ "/purge_all") None
        = Ok req ->
      exists sent,
        (PurgeAll i (w, log)).2
          = ((HTTPClient_Do sent w).2, log ++ [CallDo sent]) /\
        Verb sent = Verb req /\ Path sent = Path req /\
        (forall k, k <> "Fastly-Soft-Purge" ->
                   Header sent !! k = Header req !! k) /\
        (ASoft i = false -> sent = req) /\
        (ASoft i = true ->
         Header sent !! "Fastly-Soft-Purge" = Some ["1"])).
Proof.
  split.
  - intros i Hs Hk Hraw.
    exists (if KSoft i then Header_Set req "Fastly-Soft-Purge" "1" else req).
    split; [|apply soft_request_frame].
    unfold PurgeKey.
    destruct (decide (Service i = "")); [contradiction|].
    destruct (decide (Key i = "")); [contradiction|].
    cbn. rewrite Hraw. unfold bind, do_Do.
    destruct (HTTPClient_Do _ w) as [r w'].
    by destruct (checkResp r).
  - intros i Hs Hraw.
    exists (if ASoft i then Header_Set req "Fastly-Soft-Purge" "1" else req).
    split; [|apply soft_request_frame].
    unfold PurgeAll.
    destruct (decide (AService i = "")); [contradiction|].
    cbn. rewrite Hraw. unfold bind, do_Do.
    destruct (HTTPClient_Do _ w) as [r w'].
    by destruct (checkResp r).
Qed.

(** X4.  A purge method that returns a status has sent exactly one request,
    and the status is what [decodeJSON] made of the body of a response. *)
Theorem purge_success_means_one_call (w : W) (log : list call)
    (r : Purge_t) (st' : St) :
  (forall i, Purge i (w, log) = (Ret (Ok r), st') ->
             exists k resp,
               st'.2 = log ++ [k] /\ decodeJSON (Body resp) = Ok r) /\
  (forall i, PurgeKey i (w, log) = (Ret (Ok r), st') ->
             exists k resp,
               st'.2 = log ++ [k] /\ decodeJSON (Body resp) = Ok r) /\
  (forall i, PurgeAll i (w, log) = (Ret (Ok r), st') ->
             exists k resp,
               st'.2 = log ++ [k] /\ decodeJSON (Body resp) = Ok r).
Proof.
  assert (Hdec : forall resp, decode resp = Ok r ->
                              decodeJSON (Body resp) = Ok r).
  { intros resp. unfold decode. by destruct (decodeJSON (Body resp)). }
  split; [|split]; intros i.
  - unfold Purge. destruct (decide (URL i = "")); [discriminate|].
    destruct (Soft i); [discriminate|].
    unfold bind, ret, do_Post. cbn.
    destruct (Post _ _ w) as [[resp|err] w']; [|discriminate].
    intros [= Hr <-]. eauto.
  - unfold PurgeKey. destruct (decide (Service i = "")); [discriminate|].
    destruct (decide (Key i = "")); [discriminate|].
    cbv zeta. destruct (RawRequest _ _ _) as [req|err]; [|discriminate].
    unfold bind, do_Do.
    destruct (HTTPClient_Do _ w) as [x w'].
    destruct (checkResp x) as [resp|err]; [|discriminate].
    intros [= Hr <-]. eauto.
  - unfold PurgeAll. destruct (decide (AService i = "")); [discriminate|].
    cbv zeta. destruct (RawRequest _ _ _) as [req|err]; [|discriminate].
    unfold bind, do_Do.
    destruct (HTTPClient_Do _ w) as [x w'].
    destruct (checkResp x) as [resp|err]; [|discriminate].
    intros [= Hr <-]. eauto.
Qed.

(** X5.  Every error a purge method returns is a missing-field error or an
    error that one of its collaborators produced: [RawRequest], [Post],
    [checkResp] or [decodeJSON]. *)
Theorem purge_errors_come_from_collaborators (w : W) (log : list call)
    (e : error) (st' : St) :
  let foreign :=
    (exists verb path ro, RawRequest verb path ro = Err e) \/
    (exists path ro w0, (Post path ro w0).1 = Err e) \/
    (exists x, checkResp x = Err e) \/
    (exists body, decodeJSON body = Err e) in
  (forall i, Purge i (w, log) = (Ret (Err e), st') ->
             e = ErrMissingURL \/ foreign) /\
  (forall i, PurgeKey i (w, log) = (Ret (Err e), st') ->
             e = ErrMissingService \/ e = ErrMissingKey \/ foreign) /\
  (forall i, PurgeAll i (w, log) = (Ret (Err e), st') ->
             e = ErrMissingService \/ foreign).
Proof.
  intros foreign.
  assert (Hdec : forall resp, decode resp = Err e -> foreign).
  { intros resp. unfold decode.
    destruct (decodeJSON (Body resp)) eqn:Hd; [discriminate|].
    intros [= <-]. right; right; right. eauto. }
  split; [|split]; intros i.
  - unfold Purge. destruct (decide (URL i = "")).
    { intros [= <- _]. by left. }
    destruct (Soft i); [discriminate|].
    unfold bind, ret, do_Post. cbn.
    destruct (Post _ _ w) as [[resp|err] w'] eqn:Hpost.
    + intros [= Hr _]. right. eauto.
    + intros [= <- _]. right. right; left.
      eexists _, _, w. by rewrite Hpost.
  - unfold PurgeKey. destruct (decide (Service i = "")).
    { intros [= <- _]. by left. }
    destruct (decide (Key i = "")).
    { intros [= <- _]. right. by left. }
    cbv zeta. destruct (RawRequest _ _ _) as [req|err] eqn:Hraw.
    2:{ intros [= <- _]. right; right. left. eauto. }
    unfold bind, do_Do.
    destruct (HTTPClient_Do _ w) as [x w'].
    destruct (checkResp x) as [resp|err] eqn:Hcheck.
    + intros [= Hr _]. right; right. eauto.
    + intros [= <- _]. right; right. right; right; left. eauto.
  - unfold PurgeAll. destruct (decide (AService i = "")).
    { intros [= <- _]. by left. }
    cbv zeta. destruct (RawRequest _ _ _) as [req|err] eqn:Hraw.
    2:{ intros [= <- _]. right. left. eauto. }
    unfold bind, do_Do.
    destruct (HTTPClient_Do _ w) as [x w'].
    destruct (checkResp x) as [resp|err] eqn:Hcheck.
    + intros [= Hr _]. right. eauto.
    + intros [= <- _]. right. right; right; left. eauto.
Qed.

(** X6.  The path of [PurgeKey] is built without escaping: a service that
    ends in ["/purge/" + k1] with key [k2], and the service without that
    ending with key [k1 + "/purge/" + k2], are the same purge. *)
Theorem PurgeKey_path_not_escaped (s k1 k2 : string) (soft : bool)
    (st : St) :
  s <> "" -> k2 <> "" ->
  PurgeKey {| Service := s +:+ "/purge/" +:+ k1; Key := k2; KSoft := soft |}
           st
  = PurgeKey {| Service := s; Key := k1 +:+ "/purge/" +:+ k2;
                KSoft := soft |} st.
Proof.
  intros Hs Hk. unfold PurgeKey. cbn [Service Key KSoft].
  destruct (decide (s +:+ "/purge/" +:+ k1 = "")) as [Heq|_].
  { by apply string_app_nonempty_l in Heq. }
  destruct (decide (k2 = "")); [contradiction|].
  destruct (decide (s = "")); [contradiction|].
  destruct (decide (k1 +:+ "/purge/" +:+ k2 = "")) as [Heq|_].
  { apply string_app_nonempty_r in Heq; [done|discriminate]. }
  cbv zeta.
  assert (Hpath : "/service/" +:+ (s +:+ "/purge/" +:+ k1) +:+ "/purge/" +:+ k2
                  = "/service/" +:+ s +:+ "/purge/" +:+ k1 +:+ "/purge/" +:+ k2).
  { f_equal. by rewrite !string_app_assoc. }
  by rewrite Hpath.
Qed.

End PurgeMore.

(** * Further properties of flattening *)

Section FlattenMore.
Import Logging.

Ltac in_schema :=
  unfold httpsloggingSchema;
  repeat first [ apply list_elem_of_here | apply list_elem_of_further ].

(** X7.  [flattenHTTPS] yields one map per record, in the order of the
    records. *)
Theorem flattenHTTPS_length_order (l1 l2 : list HTTPS.t) :
  length (flattenHTTPS l1) = length l1 /\
  flattenHTTPS (l1 ++ l2) = flattenHTTPS l1 ++ flattenHTTPS l2.
Proof.
  rewrite !flattenHTTPS_fmap. split; [apply length_fmap | apply fmap_app].
Qed.

(** X8.  Every flattened map holds only keys of the schema; under a key of
    type [TypeString] it holds a non-empty string and under a key of type
    [TypeInt] an unsigned number; and the three numeric keys are always
    there, so that no flattened map is empty. *)
Theorem flattenHTTPS_shape (httpsList : list HTTPS.t)
    (m : gmap string value) :
  m ∈ flattenHTTPS httpsList ->
  (forall k v,
      m !! k = Some v ->
      exists sch,
        (k, sch) ∈ httpsloggingSchema /\
        match Type_ sch, v with
        | TypeString, VString s => s <> ""
        | TypeInt, VUint _ => True
        | _, _ => False
        end) /\
  is_Some (m !! "request_max_entries") /\
  is_Some (m !! "request_max_bytes") /\
  is_Some (m !! "format_version").
Proof.
  rewrite flattenHTTPS_fmap. intros Hm.
  apply list_elem_of_fmap in Hm as (hl & -> & _).
  split.
  - intros k v Hkv. rewrite flatten_one_lookup in Hkv.
    destruct (literal hl !! k) as [v'|] eqn:Hlit; [|discriminate].
    apply elem_of_list_to_map_2 in Hlit.
    repeat (apply elem_of_cons in Hlit as [Hlit|Hlit]);
      try (by apply elem_of_nil in Hlit);
      injection Hlit as -> ->;
      try (destruct (decide (_ = "")); [discriminate|]);
      injection Hkv as <-;
      (eexists; split; [in_schema | by cbn]).
  - rewrite !flatten_one_lookup. repeat split; by eexists.
Qed.

(** X9.  The stored map does not depend on the order in which the range
    over the literal visits its entries. *)
Theorem flatten_any_visiting_order (hl : HTTPS.t)
    (order : list (string * value)) :
  order ≡ₚ map_to_list (literal hl) ->
  prune_range order (literal hl) = flatten_one hl.
Proof. intros Hperm. by apply prune_range_any_order. Qed.






End FlattenMore.

(** * Further properties of the builders *)

Section BuildMore.
Import Logging.

Ltac next_index Hbuild df :=
  match type of Hbuild with
  | context [df !! ?k] => destruct (df !! k) as [[?s|?n|?n|?b]|] eqn:?
  end;
  cbn [obind assert_string assert_int] in Hbuild;
  try discriminate Hbuild.

(** X11.  The builders read the keys of the schema and nothing else: an
    entry under any other key changes neither the input built for a create
    nor its panic, and the input built for a delete depends on ["name"]
    alone. *)
Theorem build_inputs_ignore_other_keys
    (df : gmap string value) (k : string) (v : value)
    (sid : string) (ver : Z) :
  (k ∉ httpsloggingSchema.*1 ->
   buildCreateHTTPS (IMap (<[k := v]> df)) sid ver
   = buildCreateHTTPS (IMap df) sid ver) /\
  (k <> "name" ->
   buildDeleteHTTPS (IMap (<[k := v]> df)) sid ver
   = buildDeleteHTTPS (IMap df) sid ver).
Proof.
  split.
  - intros Hk. unfold httpsloggingSchema in Hk.
    cbn [fmap list_fmap fst] in Hk. rewrite !not_elem_of_cons in Hk.
    destruct_and!.
    unfold buildCreateHTTPS. cbn [assert_map obind].
    by rewrite !lookup_insert_ne by done.
  - intros Hk. unfold buildDeleteHTTPS. cbn [assert_map obind].
    by rewrite lookup_insert_ne by done.
Qed.

(** X12.  A number of the configuration is not checked for its sign: within
    the range of [int], a non-negative number reaches the API as it is and
    a negative one as itself plus [2^64], which is at least [2^63]. *)
Theorem buildCreateHTTPS_negative_numbers_wrap
    (df : gmap string value) (sid : string) (ver : Z)
    (opts : CreateHTTPSInput.t) :
  buildCreateHTTPS (IMap df) sid ver = Ret opts ->
  let wraps (n field : Z) :=
    (0 <= n -> field = n) /\
    (n < 0 -> field = n + 2 ^ 64 /\ 2 ^ 63 <= field) in
  (forall n, - 2 ^ 63 <= n < 2 ^ 63 ->
             df !! "request_max_entries" = Some (VInt n) ->
             wraps n (CreateHTTPSInput.RequestMaxEntries opts)) /\
  (forall n, - 2 ^ 63 <= n < 2 ^ 63 ->
             df !! "request_max_bytes" = Some (VInt n) ->
             wraps n (CreateHTTPSInput.RequestMaxBytes opts)) /\
  (forall n, - 2 ^ 63 <= n < 2 ^ 63 ->
             df !! "format_version" = Some (VInt n) ->
             wraps n (CreateHTTPSInput.FormatVersion opts)).
Proof.
  intros Hbuild wraps.
  assert (Hwrap : forall n, - 2 ^ 63 <= n < 2 ^ 63 -> wraps n (uint n)).
  { intros n Hn. split.
    - intros Hpos. apply uint_nonneg. lia.
    - intros Hneg. rewrite uint_neg by lia. lia. }
  unfold buildCreateHTTPS in Hbuild. cbn [assert_map obind] in Hbuild.
  do 18 next_index Hbuild df.
  injection Hbuild as <-.
  cbn [CreateHTTPSInput.RequestMaxEntries CreateHTTPSInput.RequestMaxBytes
       CreateHTTPSInput.FormatVersion].
  split; [|split]; intros m Hm [= <-]; by apply Hwrap.
Qed.

End BuildMore.

(** * Further properties of the reconciler *)

Section BlockMore.
Import Logging.
Context {Conn : Type} `{API Conn}.

Lemma issued_deletes (sid : string) (ver : Z) (removes : list iface)
    (issued : list call) (rest : list (outcome call)) :
  (Ret <$> issued) ++ rest = plan_delete sid ver <$> removes ->
  exists ds, issued = CallDelete <$> ds.
Proof.
  revert removes. induction issued as [|k issued IH]; intros removes Heq.
  - by exists [].
  - destruct removes as [|x removes]; [discriminate|].
    cbn [fmap list_fmap app] in Heq. injection Heq as Hk Hrest.
    symmetry in Hk. apply plan_delete_Ret in Hk as [opts ->].
    destruct (IH _ Hrest) as [ds ->]. by exists (opts :: ds).
Qed.

(** X13.  When the old and the new set are the same (both absent, or holding
    the same entries), [processHTTPS] returns [nil] without any call. *)
Theorem processHTTPS_no_change_no_call
    (d : schema.ResourceData) (ver : Z) (st : St) :
  default schema.new_Set (schema.GetChange d "httpslogging").1
  = default schema.new_Set (schema.GetChange d "httpslogging").2 ->
  processHTTPS d ver st = (Ret None, st).
Proof.
  intros Hsame. rewrite processHTTPS_run.
  unfold planned, removeHTTPSLogging, addHTTPSLogging.
  destruct (schema.GetChange d "httpslogging") as [oh nh].
  cbn [fst snd] in Hsame. rewrite Hsame.
  unfold schema.List, schema.Difference.
  by rewrite difference_diag_L, elements_empty.
Qed.

(** X14.  When every planned call reports no error, [processHTTPS] returns
    [nil] after issuing all of them, in the order planned, and leaves the
    remote configuration they produce; every return of [nil] is of this
    kind. *)
Theorem processHTTPS_succeeds_when_all_calls_do
    (d : schema.ResourceData) (ver : Z) (c : Conn) (log : list call) :
  (forall tr,
      planned d ver = Ret <$> tr -> all_ok tr c ->
      processHTTPS d ver (c, log) = (Ret None, (exec tr c, log ++ tr))) /\
  (forall st',
      processHTTPS d ver (c, log) = (Ret None, st') ->
      exists tr,
        planned d ver = Ret <$> tr /\ all_ok tr c /\
        st' = (exec tr c, log ++ tr)).
Proof.
  split.
  - intros tr Hplan Hok. rewrite processHTTPS_run, Hplan.
    by apply run_all_ok.
  - intros st'. rewrite processHTTPS_run.
    destruct (run_inv (planned d ver) c)
      as [(tr & -> & Hok)
         |[(tr & last & rest & e & -> & Hok & He)
          |(tr & msg & rest & -> & Hok)]].
    + rewrite (run_all_ok _ _ _ Hok). intros [= <-]. by exists tr.
    + rewrite (run_first_error _ _ tr last e c log eq_refl Hok He).
      discriminate.
    + rewrite (run_panic _ _ _ _ _ Hok). discriminate.
Qed.

(** X15.  When an entry cannot be turned into a call, [processHTTPS] panics
    at that entry: the calls planned before it have been issued and their
    effect stays, and nothing planned after it is issued.  Every panic is of
    this kind. *)
Theorem processHTTPS_panics_midway
    (d : schema.ResourceData) (ver : Z) (c : Conn) (log : list call)
    (msg : string) :
  (forall tr rest,
      planned d ver = (Ret <$> tr) ++ Panic msg :: rest -> all_ok tr c ->
      processHTTPS d ver (c, log) = (Panic msg, (exec tr c, log ++ tr))) /\
  (forall st',
      processHTTPS d ver (c, log) = (Panic msg, st') ->
      exists tr rest,
        planned d ver = (Ret <$> tr) ++ Panic msg :: rest /\ all_ok tr c /\
        st' = (exec tr c, log ++ tr)).
Proof.
  split.
  - intros tr rest Hplan Hok. rewrite processHTTPS_run, Hplan.
    by apply run_panic.
  - intros st'. rewrite processHTTPS_run.
    destruct (run_inv (planned d ver) c)
      as [(tr & -> & Hok)
         |[(tr & last & rest & e & -> & Hok & He)
          |(tr & msg' & rest & -> & Hok)]].
    + rewrite (run_all_ok _ _ _ Hok). discriminate.
    + rewrite (run_first_error _ _ tr last e c log eq_refl Hok He).
      discriminate.
    + rewrite (run_panic _ _ _ _ _ Hok). intros [= <- <-]. by exists tr, rest.
Qed.

(** X16.  An invocation issues at most one call per entry that is in one of
    the two sets only: entries common to both cause no call, and no entry
    is called for twice. *)
Theorem processHTTPS_call_bound
    (d : schema.ResourceData) (ver : Z) (c : Conn) (log : list call) :
  let old := default schema.new_Set (schema.GetChange d "httpslogging").1 in
  let new := default schema.new_Set (schema.GetChange d "httpslogging").2 in
  exists issued,
    (processHTTPS d ver (c, log)).2 = (exec issued c, log ++ issued) /\
    (length issued <= size (old ∖ new) + size (new ∖ old))%nat.
Proof.
  intros old new. rewrite processHTTPS_run.
  destruct (run_trace (planned d ver) c log)
    as (issued & rest & Hrun & Hplan).
  exists issued. split; [exact Hrun|].
  apply (f_equal length) in Hplan.
  rewrite length_app, length_fmap in Hplan.
  unfold planned, removeHTTPSLogging, addHTTPSLogging in Hplan.
  subst old new.
  destruct (schema.GetChange d "httpslogging") as [oh nh].
  rewrite length_app, !length_fmap in Hplan. cbn [fst snd].
  unfold schema.List, schema.Difference in Hplan.
  change (size (default schema.new_Set oh ∖ default schema.new_Set nh))
    with (length (elements
                    (default schema.new_Set oh ∖ default schema.new_Set nh))).
  change (size (default schema.new_Set nh ∖ default schema.new_Set oh))
    with (length (elements
                    (default schema.new_Set nh ∖ default schema.new_Set oh))).
  lia.
Qed.

(** X17.  When no entry was removed (the old set is part of the new one) no
    delete call is issued, and when no entry was added no create call. *)
Theorem processHTTPS_one_sided_changes
    (d : schema.ResourceData) (ver : Z) (c : Conn) (log : list call) :
  let old := default schema.new_Set (schema.GetChange d "httpslogging").1 in
  let new := default schema.new_Set (schema.GetChange d "httpslogging").2 in
  (old ⊆ new ->
   exists cs, (processHTTPS d ver (c, log)).2.2 = log ++ (CallCreate <$> cs)) /\
  (new ⊆ old ->
   exists ds, (processHTTPS d ver (c, log)).2.2 = log ++ (CallDelete <$> ds)).
Proof.
  intros old new. rewrite processHTTPS_run.
  destruct (run_trace (planned d ver) c log)
    as (issued & rest & Hrun & Hplan).
  rewrite Hrun. cbn [snd].
  unfold planned, removeHTTPSLogging, addHTTPSLogging in Hplan.
  subst old new.
  destruct (schema.GetChange d "httpslogging") as [oh nh]. cbn [fst snd].
  unfold schema.List, schema.Difference in Hplan.
  split; intros Hsub; apply subseteq_empty_difference_L in Hsub.
  - rewrite Hsub, elements_empty in Hplan. cbn [fmap list_fmap app] in Hplan.
    symmetry in Hplan.
    destruct (issued_creates _ _ _ _ _ Hplan) as [cs ->]. by exists cs.
  - rewrite Hsub, elements_empty in Hplan. cbn [fmap list_fmap] in Hplan.
    rewrite app_nil_r in Hplan. symmetry in Hplan.
    destruct (issued_deletes _ _ _ _ _ Hplan) as [ds ->]. by exists ds.
Qed.

(** X18.  A delete that is answered 404 does not end the reconciliation:
    when one entry is replaced by another and the old one is already gone
    from the service, the create of the new one is still issued, and its
    outcome is the outcome of [processHTTPS]. *)
Theorem processHTTPS_delete_404_continues
    (d : schema.ResourceData) (ver : Z) (c c' : Conn) (log : list call)
    (A B : gmap string value)
    (a : DeleteHTTPSInput.t) (b : CreateHTTPSInput.t) :
  A <> B ->
  schema.GetChange d "httpslogging" = (Some {[IMap A]}, Some {[IMap B]}) ->
  buildDeleteHTTPS (IMap A) (schema.Id d) ver = Ret a ->
  buildCreateHTTPS (IMap B) (schema.Id d) ver = Ret b ->
  DeleteHTTPS a c = (Some (HTTPError 404), c') ->
  processHTTPS d ver (c, log)
  = (Ret (match (CreateHTTPS b c').1 with
          | Err e => Some e
          | Ok _ => None
          end),
     ((CreateHTTPS b c').2, log ++ [CallDelete a; CallCreate b])).
Proof.
  intros Hne Hchange Ha Hb Hdel.
  assert (Hplan : planned d ver = [Ret (CallDelete a); Ret (CallCreate b)]).
  { unfold planned, removeHTTPSLogging, addHTTPSLogging.
    rewrite Hchange. cbn [default from_option id].
    rewrite !difference_singletons by congruence.
    cbn [fmap list_fmap app]. unfold plan_delete, plan_create.
    cbn [assert_map obind]. by rewrite Ha, Hb. }
  assert (Hd : call_result (CallDelete a) c = (None, c')).
  { cbn [call_result]. rewrite Hdel. reflexivity. }
  rewrite processHTTPS_run, Hplan. cbn [run]. unfold bind, lift.
  rewrite step_run, Hd. cbv beta iota. cbn [fst snd].
  rewrite step_run. cbn [call_result]. unfold ret.
  destruct (CreateHTTPS b c') as [[hl|e] c'']; cbn [fst snd];
    by rewrite <- app_assoc.
Qed.

End BlockMore.

(** * Properties of the refresh *)

Section RefreshFacts.
Import Refresh.
Context {Conn Data : Type} `{Env Conn Data}.

(** X19.  When listing fails, [readHTTPS] returns a new error that carries
    the text of the failure but is not an [*HTTPError] any more, whatever
    the failure was; the stored state is not written. *)
Theorem readHTTPS_list_error
    (s : ServiceDetail) (c c' : Conn) (d : Data) (log : list event)
    (err : error) :
  let i := {| Service := Data_Id d; Version := Number (ActiveVersion s) |} in
  ListHTTPS i c = (Err err, c') ->
  exists msg,
    readHTTPS s (c, d, log)
      = (Ret (Some (OtherError msg)), (c', d, log ++ [EvList i])) /\
    msg = "[ERR] Error looking up HTTPS logging endpoints for ("
          +:+ Data_Id d +:+ "), version ("
          +:+ pretty (Number (ActiveVersion s)) +:+ "): " +:+ Error err.
Proof.
  intros i Hlist. eexists. split; [|reflexivity].
  unfold readHTTPS, bind, get_Id, do_List. fold i. by rewrite Hlist.
Qed.

(** X20.  When listing succeeds, [readHTTPS] writes the flattened list under
    ["httpslogging"] and returns [nil], also when that write fails: the
    error of [d.Set] is dropped. *)
Theorem readHTTPS_drops_set_error
    (s : ServiceDetail) (c c' : Conn) (d : Data) (log : list event)
    (httpsList : list HTTPS.t) :
  let i := {| Service := Data_Id d; Version := Number (ActiveVersion s) |} in
  let hll := Logging.flattenHTTPS httpsList in
  ListHTTPS i c = (Ok httpsList, c') ->
  readHTTPS s (c, d, log)
  = (Ret None,
     (c', (Data_Set "httpslogging" hll d).2,
      log ++ [EvList i; EvSet "httpslogging" hll])).
Proof.
  intros i hll Hlist.
  unfold readHTTPS, bind, get_Id, do_List, do_Set. fold i. rewrite Hlist.
  fold hll. destruct (Data_Set "httpslogging" hll d) as [[e|] d']; cbn;
    by rewrite <- app_assoc.
Qed.

End RefreshFacts.

(** * Further runs on the reference collaborators *)

Section MoreRuns.
Import Logging Reference Reference2.

Ltac by_evaluation :=
  first [ apply (proj1 (bool_decide_eq_true _))
        | apply (proj1 (bool_decide_eq_false _)) ];
  vm_compute; reflexivity.

(** X2 on a client that cannot build requests. *)
Lemma purge_request_build_error_run :
  let st : PurgeClient.St := (["purge/a"], []) in
  @PurgeClient.PurgeKey _ (client_with false 200)
    {| PurgeClient.Service := "svc1"; PurgeClient.Key := "k 1";
       PurgeClient.KSoft := true |} st
  = (Ret (Err (OtherError "parse: invalid URL escape")), st) /\
  @PurgeClient.PurgeAll _ (client_with false 200)
    {| PurgeClient.AService := "svc1"; PurgeClient.ASoft := false |} st
  = (Ret (Err (OtherError "parse: invalid URL escape")), st).
Proof.
  intros st.
  destruct (@purge_request_build_error _ (client_with false 200)
              (OtherError "parse: invalid URL escape") st) as [HK HA].
  split.
  - apply HK; [discriminate | discriminate | reflexivity].
  - apply HA; [discriminate | reflexivity].
Defined.

(** X3 on a client whose requests come with a value for the header
    already: the soft purge replaces it, the other header stays. *)
Lemma purge_soft_touches_one_header_run :
  exists sent,
    (@PurgeClient.PurgeKey _ (client_with true 200)
       {| PurgeClient.Service := "svc1"; PurgeClient.Key := "k1";
          PurgeClient.KSoft := true |} ([], [])).2.2
      = [PurgeClient.CallDo sent] /\
    PurgeClient.Header sent !! "Fastly-Soft-Purge" = Some ["1"] /\
    PurgeClient.Header sent !! "User-Agent" = Some ["FastlyGo"].
Proof.
  destruct (@purge_soft_touches_one_header _ (client_with true 200) [] []
              {| PurgeClient.Verb := "POST";
                 PurgeClient.Path := "/service/svc1/purge/k1";
                 PurgeClient.Header :=
                   <["Fastly-Soft-Purge" := ["0"]]>
                     (<["User-Agent" := ["FastlyGo"]]> ∅) |})
    as [HK _].
  destruct (HK {| PurgeClient.Service := "svc1"; PurgeClient.Key := "k1";
                  PurgeClient.KSoft := true |})
    as (sent & Hrun & _ & _ & Hframe & _ & Hsoft);
    [discriminate | discriminate | reflexivity |].
  exists sent. split; [by rewrite Hrun|]. split; [by apply Hsoft|].
  rewrite Hframe by discriminate. vm_compute. reflexivity.
Defined.

(** X4 on the reference client. *)
Lemma purge_success_means_one_call_run :
  exists k,
    (PurgeClient.PurgeAll
       {| PurgeClient.AService := "svc1"; PurgeClient.ASoft := true |}
       (([] : list string), [])).2.2 = [k].
Proof.
  destruct (purge_success_means_one_call (W := list string) [] []
              {| PurgeClient.Status := "ok";
                 PurgeClient.ID := "/service/svc1/purge_all" |}
              (PurgeClient.PurgeAll
                 {| PurgeClient.AService := "svc1";
                    PurgeClient.ASoft := true |}
                 (([] : list string), [])).2) as (_ & _ & HA).
  destruct (HA {| PurgeClient.AService := "svc1";
                  PurgeClient.ASoft := true |}) as (k & resp & Hlog & _);
    [vm_compute; reflexivity|].
  exists k. exact Hlog.
Defined.

(** X5 on a server that answers 503. *)
Lemma purge_errors_come_from_collaborators_run :
  let cl := client_with true 503 in
  let e := HTTPError 503 in
  e = ErrMissingService \/
  (exists verb path ro, @PurgeClient.RawRequest _ cl verb path ro = Err e) \/
  (exists path ro w0, (@PurgeClient.Post _ cl path ro w0).1 = Err e) \/
  (exists x, @PurgeClient.checkResp _ cl x = Err e) \/
  (exists body, @PurgeClient.decodeJSON _ cl body = Err e).
Proof.
  intros cl e.
  destruct (@purge_errors_come_from_collaborators _ cl [] [] e
              (["/service/svc1/purge_all"],
               [PurgeClient.CallDo
                  {| PurgeClient.Verb := "POST";
                     PurgeClient.Path := "/service/svc1/purge_all";
                     PurgeClient.Header :=
                       <["Fastly-Soft-Purge" := ["0"]]>
                         (<["User-Agent" := ["FastlyGo"]]> ∅) |}]))
    as (_ & _ & HA).
  apply (HA {| PurgeClient.AService := "svc1";
               PurgeClient.ASoft := false |}).
  vm_compute. reflexivity.
Defined.

(** X6 on the service ["svc1"] and the keys ["a"] and ["b"]. *)
Lemma PurgeKey_path_not_escaped_run :
  PurgeClient.PurgeKey
    {| PurgeClient.Service := "svc1/purge/a"; PurgeClient.Key := "b";
       PurgeClient.KSoft := false |} (([] : list string), [])
  = PurgeClient.PurgeKey
      {| PurgeClient.Service := "svc1"; PurgeClient.Key := "a/purge/b";
         PurgeClient.KSoft := false |} ([], []).
Proof.
  apply (PurgeKey_path_not_escaped (W := list string) "svc1" "a" "b");
    discriminate.
Defined.

(** X8 on a record without content type. *)
Lemma flattenHTTPS_shape_run :
  let hl := record "logs" "https://logs.example.com" "" 0 in
  flatten_one hl !! "content_type" = None /\
  is_Some (flatten_one hl !! "format_version").
Proof.
  intros hl.
  destruct (flattenHTTPS_shape [hl] (flatten_one hl)) as (Hkeys & _ & _ & Hv).
  - rewrite flattenHTTPS_fmap. apply list_elem_of_here.
  - split; [|exact Hv].
    destruct (flatten_one hl !! "content_type") as [v|] eqn:Hct;
      [|reflexivity].
    destruct (Hkeys _ _ Hct) as (sch & _ & _).
    vm_compute in Hct. discriminate Hct.
Defined.

(** X9 on the entries visited last to first. *)
Lemma flatten_any_visiting_order_run :
  let hl := record "logs" "https://logs.example.com" "" 0 in
  prune_range (reverse (map_to_list (literal hl))) (literal hl)
  = flatten_one hl.
Proof.
  intros hl. apply flatten_any_visiting_order.
  apply reverse_Permutation.
Defined.


(** X11 on an entry with a key the schema does not have. *)
Lemma build_inputs_ignore_other_keys_run :
  buildCreateHTTPS
    (IMap (<["comment" := VBool true]> (entry "a" "https://a.example.com")))
    "svc1" 3
  = buildCreateHTTPS (IMap (entry "a" "https://a.example.com")) "svc1" 3.
Proof.
  apply (build_inputs_ignore_other_keys
           (entry "a" "https://a.example.com") "comment" (VBool true)).
  by_evaluation.
Defined.

(** X12 on an entry whose [request_max_bytes] is [-5]. *)
Lemma buildCreateHTTPS_negative_numbers_wrap_run :
  exists opts,
    buildCreateHTTPS
      (IMap (<["request_max_bytes" := VInt (-5)]>
               (entry "a" "https://a.example.com"))) "svc1" 3 = Ret opts /\
    CreateHTTPSInput.RequestMaxBytes opts = 18446744073709551611.
Proof.
  destruct (buildCreateHTTPS
              (IMap (<["request_max_bytes" := VInt (-5)]>
                       (entry "a" "https://a.example.com"))) "svc1" 3)
    as [opts|msg] eqn:Hbuild; [|vm_compute in Hbuild; discriminate Hbuild].
  exists opts. split; [reflexivity|].
  pose proof (buildCreateHTTPS_negative_numbers_wrap _ _ _ _ Hbuild) as Hw.
  cbv zeta in Hw. destruct Hw as (_ & Hbytes & _).
  destruct (Hbytes (-5)) as [_ Hneg]; [lia | vm_compute; reflexivity |].
  destruct Hneg as [-> _]; [lia | reflexivity].
Defined.

(** X13 on a change that leaves the set as it was. *)
Lemma processHTTPS_no_change_no_call_run :
  let s : gset iface := {[IMap (entry "a" "https://a.example.com")]} in
  processHTTPS (change s s) 3 (server_with false ["a"], [])
  = (Ret None, (server_with false ["a"], [])).
Proof.
  intros s. apply processHTTPS_no_change_no_call. reflexivity.
Defined.

(** X14 on the rename of ["a"] to ["b"] against a server that holds
    ["a"]. *)
Lemma processHTTPS_succeeds_run :
  let d := change {[IMap (entry "a" "https://logs.example.com")]}
                  {[IMap (entry "b" "https://logs.example.com")]} in
  let tr := [CallDelete (delete_input "a");
             CallCreate (create_input "b" "https://logs.example.com")] in
  processHTTPS d 3 (server_with false ["a"], [])
  = (Ret None, (exec tr (server_with false ["a"]), tr)).
Proof.
  intros d tr.
  apply (proj1 (processHTTPS_succeeds_when_all_calls_do
                  d 3 (server_with false ["a"]) [])).
  - vm_compute. reflexivity.
  - split; [vm_compute; reflexivity|].
    split; [vm_compute; reflexivity | exact I].
Defined.

(** X15 on a change that removes ["a"] and adds an entry without ["url"]:
    the delete is made, then the block panics. *)
Lemma processHTTPS_panics_midway_run :
  let d := change
             {[IMap (entry "a" "https://logs.example.com")]}
             {[IMap (delete "url" (entry "b" "https://logs.example.com"))]} in
  let tr := [CallDelete (delete_input "a")] in
  processHTTPS d 3 (server_with false ["a"], [])
  = (Panic "interface conversion: interface {} is not string",
     (exec tr (server_with false ["a"]), tr)).
Proof.
  intros d tr.
  apply (proj1 (processHTTPS_panics_midway
                  d 3 (server_with false ["a"]) []
                  "interface conversion: interface {} is not string"))
    with (rest := []).
  - vm_compute. reflexivity.
  - split; [vm_compute; reflexivity | exact I].
Defined.

(** X17 on a first apply: no old set, one new entry. *)
Lemma processHTTPS_one_sided_changes_run :
  let d := {| schema.Id := "svc1";
              schema.GetChange _ :=
                (None, Some {[IMap (entry "a" "https://a.example.com")]}) |} in
  exists cs,
    (processHTTPS d 3 (server_with false [], [])).2.2 = CallCreate <$> cs.
Proof.
  intros d.
  destruct (processHTTPS_one_sided_changes d 3 (server_with false []) [])
    as [Hcreate _].
  apply Hcreate. cbn. apply empty_subseteq.
Defined.

(** X18 on the rename of ["a"] to ["b"] against a server that holds
    neither. *)
Lemma processHTTPS_delete_404_continues_run :
  let d := change {[IMap (entry "a" "https://logs.example.com")]}
                  {[IMap (entry "b" "https://logs.example.com")]} in
  processHTTPS d 3 (server_with false [], [])
  = (Ret None,
     (server_with false ["b"],
      [CallDelete (delete_input "a");
       CallCreate (create_input "b" "https://logs.example.com")])).
Proof.
  intros d.
  rewrite (processHTTPS_delete_404_continues
             d 3 (server_with false []) (server_with false []) []
             (entry "a" "https://logs.example.com")
             (entry "b" "https://logs.example.com")
             (delete_input "a")
             (create_input "b" "https://logs.example.com")).
  - vm_compute. reflexivity.
  - by_evaluation.
  - reflexivity.
  - vm_compute. reflexivity.
  - vm_compute. reflexivity.
  - vm_compute. reflexivity.
Defined.

(** X19 on a locked version, which refuses to be listed. *)
Lemma readHTTPS_list_error_run :
  let d := {| data_id := "svc1"; frozen := false; stored := None |} in
  let s := {| Refresh.ActiveVersion := {| Refresh.Number := 7 |} |} in
  Refresh.readHTTPS s (server_with true ["a"], d, [])
  = (Ret (Some (OtherError
                  ("[ERR] Error looking up HTTPS logging endpoints for "
                   +:+ "(svc1), version (7): 500 - error"))),
     (server_with true ["a"], d,
      [Refresh.EvList
         {| Refresh.Service := "svc1"; Refresh.Version := 7 |}])).
Proof.
  intros d s.
  destruct (readHTTPS_list_error s (server_with true ["a"])
              (server_with true ["a"]) d [] (HTTPError 500))
    as (msg & Hrun & ->).
  - vm_compute. reflexivity.
  - rewrite Hrun. vm_compute. reflexivity.
Defined.

(** X20 on frozen resource data: the write is refused and [readHTTPS]
    returns [nil] all the same. *)
Lemma readHTTPS_drops_set_error_run :
  let d := {| data_id := "svc1"; frozen := true; stored := None |} in
  let s := {| Refresh.ActiveVersion := {| Refresh.Number := 7 |} |} in
  (Refresh.Data_Set "httpslogging" [] d).1
    = Some (OtherError "Invalid address to set") /\
  (Refresh.readHTTPS s (server_with false [], d, [])).1 = Ret None.
Proof.
  intros d s. split; [reflexivity|].
  rewrite (readHTTPS_drops_set_error s (server_with false [])
             (server_with false []) d [] []).
  - reflexivity.
  - vm_compute. reflexivity.
Defined.

End MoreRuns.
